(** * Zmanim: halachic times of day (hdate/zmanim.py)

    A shallow embedding of [hdate.zmanim.Zmanim] and the properties of its
    solar-angle solver, of the derivation of the named zmanim and of the
    day-transition predicates (candle lighting, havdalah, issur melacha).

    Conventions of the embedding.
    - A Python [int] is a [Z]; a Python [float] is a [Q]: float arithmetic is
      idealised as exact rational arithmetic (no rounding error, no NaN, no
      infinity).  The operations that can raise on floats ([/] by zero,
      [math.acos] outside its domain) keep their exceptions.
    - Code that can raise returns [result]; [try ... except ValueError] is
      [try_except_ValueError].
    - A [dt.date] is its proleptic Gregorian ordinal ([date.toordinal()]);
      an aware [dt.datetime] is its UTC instant in microseconds counted from
      midnight of ordinal 0.  [astimezone] only changes the zone a datetime
      is presented in, so it is the identity on instants.  Dates and
      instants are unbounded: the range of [dt.date] and [dt.datetime]
      (the years 1 to 9999), and the OverflowError Python raises when an
      operation leaves it, are not modelled.
    - The collaborators that are not part of zmanim.py are interfaces:
      [Math] (the [math] module), [Astral] (the optional [astral] package)
      and [Calendar] ([hdate.date.HDate]). *)

From Stdlib Require Import ZArith QArith Qround Qabs Lia Lqa.
From stdpp Require Import base option gmap strings.

Local Open Scope Z_scope.

(** ** Exceptions *)

Inductive exception : Type :=
  | TypeError
  | ValueError
  | ZeroDivisionError
  | KeyError (key : string)
  | AttributeError (attr : string)
  | NameError (name : string).

Inductive result (A : Type) : Type :=
  | Ok (a : A)
  | Raise (e : exception).
Arguments Ok {A} a.
Arguments Raise {A} e.

Definition bind {A B} (r : result A) (k : A -> result B) : result B :=
  match r with
  | Ok a => k a
  | Raise e => Raise e
  end.

Definition result_map {A B} (f : A -> B) (r : result A) : result B :=
  bind r (fun a => Ok (f a)).

Notation "'let*' x ':=' r 'in' k" := (bind r (fun x => k))
  (at level 10, x pattern, r at level 100, k at level 200).

(** [a and b], where evaluating an operand can raise. *)
Definition py_and (a b : result bool) : result bool :=
  let* x := a in if (x : bool) then b else Ok false.

(** [try: body except ValueError: handler] *)
Definition try_except_ValueError {A} (body : result A) (handler : result A)
  : result A :=
  match body with
  | Raise ValueError => handler
  | r => r
  end.

(** [d[key]] on a dict with string keys. *)
Definition getitem {V} (d : gmap string V) (key : string) : result V :=
  match d !! key with
  | Some v => Ok v
  | None => Raise (KeyError key)
  end.

(** ** Numbers *)

(** A value of type [Union[int, float]]. *)
Inductive number : Type :=
  | Int (n : Z)
  | Float (x : Q).

Definition number_value (v : number) : Q :=
  match v with
  | Int n => inject_Z n
  | Float x => x
  end.

(** [int(x)] for a float [x]: truncation toward zero. *)
Definition py_int (x : Q) : Z :=
  if Qle_bool 0 x then Qfloor x else Qceiling x.

(** [x / y] on floats. *)
Definition truediv (x y : Q) : result Q :=
  if Qeq_bool y 0 then Raise ZeroDivisionError else Ok (x / y)%Q.

(** Rounding to the nearest integer, ties to even ([round]). *)
Definition round_half_even (x : Q) : Z :=
  let f := Qfloor x in
  let r := (x - inject_Z f)%Q in
  match (r ?= 1 # 2)%Q with
  | Lt => f
  | Gt => f + 1
  | Eq => if Z.even f then f else f + 1
  end.

(** ** Dates, datetimes and time zones *)

(** [dt.date] and [dt.datetime] *)
Abbreviation dt_date := Z (only parsing).
Abbreviation dt_datetime := Z (only parsing).

Definition us_per_minute : Z := 60000000.
Definition us_per_hour : Z := 3600000000.
Definition us_per_day : Z := 86400000000.

(** [dt.timedelta(minutes=v)], in microseconds. *)
Definition timedelta_minutes (v : number) : Z :=
  match v with
  | Int n => n * us_per_minute
  | Float x => round_half_even (x * inject_Z us_per_minute)
  end.

Definition is_leap (year : Z) : bool :=
  (year mod 4 =? 0) && (negb (year mod 100 =? 0) || (year mod 400 =? 0)).

Definition days_before_year (year : Z) : Z :=
  let y := year - 1 in
  y * 365 + y / 4 - y / 100 + y / 400.

Definition days_in_month (year month : Z) : Z :=
  if month =? 2 then (if is_leap year then 29 else 28)
  else if (month =? 4) || (month =? 6) || (month =? 9) || (month =? 11)
       then 30 else 31.

Fixpoint days_before_month_aux (year : Z) (n : nat) : Z :=
  match n with
  | O => 0
  | S k => days_before_month_aux year k + days_in_month year (Z.of_nat (S k))
  end.

Definition days_before_month (year month : Z) : Z :=
  days_before_month_aux year (Z.to_nat (month - 1)).

(** [dt.date(year, month, day)] *)
Definition mkdate (year month day : Z) : dt_date :=
  days_before_year year + days_before_month year month + day.

(** [d.year] *)
Definition date_year (d : dt_date) : Z :=
  let n := d - 1 in
  let n400 := n / 146097 in
  let n := n mod 146097 in
  let n100 := n / 36524 in
  let n := n mod 36524 in
  let n4 := n / 1461 in
  let n := n mod 1461 in
  let n1 := n / 365 in
  let year := n400 * 400 + 1 + n100 * 100 + n4 * 4 + n1 in
  if (n1 =? 4) || (n100 =? 4) then year - 1 else year.

(** [dt.datetime.combine(d, dt.time()).replace(tzinfo=dt.timezone.utc)] *)
Definition utc_midnight (d : dt_date) : dt_datetime := d * us_per_day.

(** The fields of a datetime expressed in UTC. *)
Definition datetime_date (t : dt_datetime) : dt_date := t / us_per_day.
Definition datetime_hour (t : dt_datetime) : Z :=
  (t mod us_per_day) / us_per_hour.
Definition datetime_minute (t : dt_datetime) : Z :=
  (t mod us_per_hour) / us_per_minute.
Definition datetime_second (t : dt_datetime) : Z :=
  (t mod us_per_minute) / 1000000.

(** A [tzinfo]: the UTC offset, in microseconds, of a naive local time. *)
Record tzinfo : Type := {
  tzname : string;
  utcoffset : Z -> Z
}.

(** [naive.replace(tzinfo=tz).astimezone(dt.timezone.utc)], for an instant
    that stays inside the range of [dt.datetime] (outside of it Python
    raises OverflowError). *)
Definition localize_to_utc (tz : tzinfo) (naive : Z) : dt_datetime :=
  naive - utcoffset tz naive.

(** [a < b], [a >= b] and [a > b] on datetimes, where the right operand
    may be [None]: Python then raises [TypeError]. *)
Definition datetime_lt (a : dt_datetime) (b : option dt_datetime)
  : result bool :=
  match b with
  | Some b => Ok (a <? b)
  | None => Raise TypeError
  end.

Definition datetime_ge (a : dt_datetime) (b : option dt_datetime)
  : result bool :=
  match b with
  | Some b => Ok (b <=? a)
  | None => Raise TypeError
  end.

Definition datetime_gt (a : dt_datetime) (b : option dt_datetime)
  : result bool :=
  match b with
  | Some b => Ok (b <? a)
  | None => Raise TypeError
  end.

(** [x is None] and [x is not None] *)
Definition is_None {A} (x : option A) : bool :=
  match x with
  | None => true
  | Some _ => false
  end.

Definition is_not_None {A} (x : option A) : bool := negb (is_None x).

(** [t.astimezone(tz)] *)
Definition astimezone (tz : tzinfo) (t : dt_datetime) : dt_datetime := t.

(** ** Collaborators *)

(** The [math] module.  [math.acos] raises [ValueError] outside of
    [[-1, 1]]; [acos] is its value inside. *)
Class Math : Type := {
  cos : Q -> Q;
  sin : Q -> Q;
  tan : Q -> Q;
  acos : Q -> Q
}.

(** [math.pi], the binary64 number nearest to pi. *)
Definition math_pi : Q := 884279719003555 # 281474976710656.

Definition math_acos `{Math} (x : Q) : result Q :=
  if Qle_bool (-1) x && Qle_bool x 1 then Ok (acos x) else Raise ValueError.

(** hdate.location.Location, with the fields zmanim.py reads. *)
Record Location : Type := {
  latitude : Q;
  longitude : Q;
  timezone : tzinfo;
  diaspora : bool
}.

(** hdate.date.HDate, with the two properties zmanim.py reads. *)
Record HDate : Type := {
  is_shabbat : bool;
  is_yom_tov : bool
}.

Class Calendar : Type := {
  HDate_new : dt_date -> bool -> HDate
}.

(** The [astral] package. *)
Record Observer : Type := {
  observer_latitude : Q;
  observer_longitude : Q
}.

Inductive SunDirection : Type := RISING | SETTING.

Record Astral : Type := {
  astral_sun_sun : Observer -> dt_date -> gmap string dt_datetime;
  astral_sun_time_of_transit :
    Observer -> dt_date -> Q -> SunDirection -> dt_datetime
}.

(** ** The Zmanim object *)

Definition MAX_LATITUDE_ASTRAL : Q := 50.

(** The value of the [date] argument of [Zmanim.__init__]. *)
Inductive moment : Type :=
  | a_date (d : dt_date)
  | a_datetime (naive : Z)
  | a_str (s : string).

Record Zmanim : Type := {
  location : Location;
  language : string;
  candle_lighting_offset : Z;
  havdalah_offset : Z;
  date : dt_date;
  time : dt_datetime;
  astral_observer : option Observer;
  astral_sun : option (gmap string dt_datetime)
}.

(** [self.location = new_location]: the class declares no slots and no
    property for [location], so the code that holds an instance can assign
    the attribute; the other attributes stay as [__init__] left them. *)
Definition set_location (self : Zmanim) (new_location : Location) : Zmanim :=
  {| location := new_location;
     language := language self;
     candle_lighting_offset := candle_lighting_offset self;
     havdalah_offset := havdalah_offset self;
     date := date self;
     time := time self;
     astral_observer := astral_observer self;
     astral_sun := astral_sun self |}.

(** What importing the module leaves behind: the [astral] package when
    [import astral] succeeded, and the default value of the [date]
    parameter, which Python evaluates when the [def] is executed. *)
Record Module : Type := {
  astral : option Astral;
  default_date : moment
}.

(** Executing zmanim.py at import time, when the clock reads [now]. *)
Definition import_module (astral_package : option Astral) (now : Z) : Module :=
  {| astral := astral_package;
     default_date := a_datetime now |}.

Definition _USE_ASTRAL (M : Module) : bool :=
  match astral M with
  | Some _ => true
  | None => false
  end.

Local Coercion inject_Z : Z >-> Q.

Definition Qgt_bool (x y : Q) : bool := negb (Qle_bool x y).

Section zmanim.
Context `{Math} `{Calendar}.
Variable M : Module.

Local Open Scope Q_scope.

(** [Zmanim.__init__], called when the clock reads [now].  [date_arg] is
    [None] when the caller leaves the [date] argument out. *)
Definition __init__ (now : Z) (date_arg : option moment)
    (location : Location) (language : string)
    (candle_lighting_offset havdalah_offset : Z) : result Zmanim :=
  let date := default (default_date M) date_arg in
  let* (self_date, self_time) :=
    match date with
    | a_datetime naive => Ok ((naive / us_per_day)%Z, naive)
    | a_date d => Ok (d, now)
    | a_str _ => Raise TypeError
    end in
  let self_time := localize_to_utc (timezone location) self_time in
  let self :=
    {| location := location;
       language := language;
       candle_lighting_offset := candle_lighting_offset;
       havdalah_offset := havdalah_offset;
       date := self_date;
       time := self_time;
       astral_observer := None;
       astral_sun := None |} in
  match astral M with
  | Some pkg =>
      if Qle_bool (Qabs (latitude location)) MAX_LATITUDE_ASTRAL then
        let observer :=
          {| observer_latitude := latitude location;
             observer_longitude := longitude location |} in
        Ok {| location := location;
              language := language;
              candle_lighting_offset := candle_lighting_offset;
              havdalah_offset := havdalah_offset;
              date := self_date;
              time := self_time;
              astral_observer := Some observer;
              astral_sun := Some (astral_sun_sun pkg observer self_date) |}
      else Ok self
  | None => Ok self
  end.

Definition gday_of_year (self : Zmanim) : Z :=
  (date self - mkdate (date_year (date self)) 1 1)%Z.

Definition _get_utc_sun_time_deg (self : Zmanim) (deg : Q)
  : result (Z * Z) :=
  let sunrise_angle := math_pi * deg / 180 in
  let day_of_year : Q := gday_of_year self in
  let gama := 2 * math_pi * ((day_of_year - 1) / 365) in
  let eqtime :=
    229.18 * (0.000075
              + 0.001868 * cos gama
              - 0.032077 * sin gama
              - 0.014615 * cos (2 * gama)
              - 0.040849 * sin (2 * gama)) in
  let decl :=
    0.006918
    - 0.399912 * cos gama
    + 0.070257 * sin gama
    - 0.006758 * cos (2 * gama)
    + 0.000907 * sin (2 * gama)
    - 0.002697 * cos (3 * gama)
    + 0.00148 * sin (3 * gama) in
  let latitude := math_pi * latitude (location self) / 180 in
  let attempt : result (option Q) :=
    try_except_ValueError
      (let* q := truediv (cos sunrise_angle) (cos latitude * cos decl) in
       let* hour_angle := math_acos (q - tan latitude * tan decl) in
       Ok (Some hour_angle))
      (Ok None) in
  let* found := attempt in
  match found with
  | None => Ok ((-720)%Z, (-720)%Z)
  | Some hour_angle =>
      let hour_angle := 720 * hour_angle / math_pi in
      let longitude := longitude (location self) in
      Ok (py_int (720 - 4 * longitude - hour_angle - eqtime),
          py_int (720 - 4 * longitude + hour_angle - eqtime))
  end.

Definition _datetime_to_minutes_offest (self : Zmanim) (t : dt_datetime)
  : Z :=
  (datetime_hour t * 60
   + datetime_minute t
   + (if 30 <=? datetime_second t then 1 else 0)
   + (datetime_date t - date self) * 86400 / 60)%Z.

Definition _get_utc_time_of_transit (self : Zmanim) (zenith : Q)
    (rising : bool) : result Z :=
  match astral M with
  | None => Raise (NameError "astral")
  | Some pkg =>
      match astral_observer self with
      | None => Raise (AttributeError "astral_observer")
      | Some observer =>
          Ok (_datetime_to_minutes_offest self
                (astral_sun_time_of_transit pkg observer (date self) zenith
                   (if rising then RISING else SETTING)))
      end
  end.

(** The first branch of [get_utc_sun_time_full]: sunrise, sunset,
    first_light, talit, first_stars and three_stars from the low-accuracy
    solver. *)
Definition low_accuracy_markers (self : Zmanim)
  : result (Z * Z * Z * Z * Z * Z) :=
  let* (sunrise, sunset) := _get_utc_sun_time_deg self 90.833 in
  let* (first_light, _) := _get_utc_sun_time_deg self 106.1 in
  let* (talit, _) := _get_utc_sun_time_deg self 101.0 in
  let* (_, first_stars) := _get_utc_sun_time_deg self 96.0 in
  let* (_, three_stars) := _get_utc_sun_time_deg self 98.5 in
  Ok (sunrise, sunset, first_light, talit, first_stars, three_stars).

(** The second branch: the same markers from [astral]. *)
Definition astral_markers (self : Zmanim)
  : result (Z * Z * Z * Z * Z * Z) :=
  match astral_sun self with
  | None => Raise (AttributeError "astral_sun")
  | Some sun =>
      let* sunrise := getitem sun "sunrise" in
      let sunrise := _datetime_to_minutes_offest self sunrise in
      let* sunset := getitem sun "sunset" in
      let sunset := _datetime_to_minutes_offest self sunset in
      let* first_light := _get_utc_time_of_transit self 106.1 true in
      let* talit := _get_utc_time_of_transit self 101.0 true in
      let* first_stars := _get_utc_time_of_transit self 96.0 false in
      let* three_stars := _get_utc_time_of_transit self 98.5 false in
      Ok (sunrise, sunset, first_light, talit, first_stars, three_stars)
  end.

(** The second half of [get_utc_sun_time_full]: sun_hour, midday,
    mga_sunhour and the dict of all the zmanim, from the six markers. *)
Definition zmanim_of_markers (markers : Z * Z * Z * Z * Z * Z)
  : gmap string number :=
  let '(sunrise, sunset, first_light, talit, first_stars, three_stars) :=
    markers in
  let sun_hour : Z := ((sunset - sunrise) / 12)%Z in
  let midday : Z := ((sunset + sunrise) / 2)%Z in
  let mga_sunhour : Q := (midday - first_light)%Z / 6 in
  list_to_map
    [ ("sunrise", Int sunrise);
      ("sunset", Int sunset);
      ("sun_hour", Int sun_hour);
      ("midday", Int midday);
      ("first_light", Int first_light);
      ("talit", Int talit);
      ("first_stars", Int first_stars);
      ("three_stars", Int three_stars);
      ("plag_mincha", Float (sunset - 1.25 * sun_hour));
      ("stars_out", Float (sunset + 18.0 * sun_hour / 60.0));
      ("small_mincha", Float (sunrise + 9.5 * sun_hour));
      ("big_mincha", Float (sunrise + 6.5 * sun_hour));
      ("big_mincha_30", Int (midday + 30));
      ("mga_end_shma", Float (first_light + mga_sunhour * 3.0));
      ("gra_end_shma", Float (sunrise + sun_hour * 3.0));
      ("mga_end_tfila", Float (first_light + mga_sunhour * 4.0));
      ("gra_end_tfila", Float (sunrise + sun_hour * 4.0));
      ("rabbeinu_tam", Float (sunset + sun_hour * 1.2));
      ("midnight", Float (midday + 12 * 60.0)) ].

Definition get_utc_sun_time_full (self : Zmanim)
  : result (gmap string number) :=
  let* markers :=
    (if negb (_USE_ASTRAL M)
        || Qgt_bool (Qabs (latitude (location self))) MAX_LATITUDE_ASTRAL
     then low_accuracy_markers self
     else astral_markers self) in
  Ok (zmanim_of_markers markers).

Definition utc_zmanim (self : Zmanim) : result (gmap string dt_datetime) :=
  let basetime := utc_midnight (date self) in
  let* times := get_utc_sun_time_full self in
  Ok ((fun value => (basetime + timedelta_minutes value)%Z) <$> times).

Definition zmanim (self : Zmanim) : result (gmap string dt_datetime) :=
  let* times := utc_zmanim self in
  Ok (astimezone (timezone (location self)) <$> times).

Definition _havdalah_datetime (self : Zmanim) : result dt_datetime :=
  if (havdalah_offset self =? 0)%Z then
    let* times := zmanim self in getitem times "three_stars"
  else
    let* times := zmanim self in
    let* sunset := getitem times "sunset" in
    Ok (sunset + timedelta_minutes (Int (havdalah_offset self)))%Z.

Definition candle_lighting (self : Zmanim) : result (option dt_datetime) :=
  let today := HDate_new (date self) (diaspora (location self)) in
  let tomorrow := HDate_new (date self + 1)%Z (diaspora (location self)) in
  if (is_yom_tov today || is_shabbat today) && is_yom_tov tomorrow then
    result_map Some (_havdalah_datetime self)
  else if is_shabbat tomorrow || is_yom_tov tomorrow then
    let* times := zmanim self in
    let* sunset := getitem times "sunset" in
    Ok (Some (sunset
              - timedelta_minutes (Int (candle_lighting_offset self)))%Z)
  else Ok None.

Definition havdalah (self : Zmanim) : result (option dt_datetime) :=
  let today := HDate_new (date self) (diaspora (location self)) in
  let tomorrow := HDate_new (date self + 1)%Z (diaspora (location self)) in
  if is_shabbat today || is_yom_tov today then
    if is_shabbat tomorrow || is_yom_tov tomorrow then Ok None
    else result_map Some (_havdalah_datetime self)
  else Ok None.

Definition issur_melacha_in_effect (self : Zmanim) : result bool :=
  let today := HDate_new (date self) (diaspora (location self)) in
  let tomorrow := HDate_new (date self + 1)%Z (diaspora (location self)) in
  if (is_shabbat today || is_yom_tov today)
     && (is_shabbat tomorrow || is_yom_tov tomorrow)
  then Ok true
  else
    let* before_havdalah :=
      py_and (Ok (is_shabbat today || is_yom_tov today))
        (py_and (result_map is_not_None (havdalah self))
           (bind (havdalah self) (datetime_lt (time self)))) in
    if before_havdalah then Ok true
    else
      let* after_candle_lighting :=
        py_and (Ok (is_shabbat tomorrow || is_yom_tov tomorrow))
          (py_and (result_map is_not_None (candle_lighting self))
             (bind (candle_lighting self) (datetime_ge (time self)))) in
      if after_candle_lighting then Ok true else Ok false.

Definition erev_shabbat_chag (self : Zmanim) : result bool :=
  let today := HDate_new (date self) (diaspora (location self)) in
  let tomorrow := HDate_new (date self + 1)%Z (diaspora (location self)) in
  let* lighting := candle_lighting self in
  if is_None lighting then Ok false
  else
    let* before :=
      py_and (Ok (is_shabbat tomorrow || is_yom_tov tomorrow))
        (py_and (Ok (negb (is_shabbat today) && negb (is_yom_tov today)))
           (bind (candle_lighting self) (datetime_lt (time self)))) in
    if before then Ok true else Ok false.

Definition motzei_shabbat_chag (self : Zmanim) : result bool :=
  let today := HDate_new (date self) (diaspora (location self)) in
  let tomorrow := HDate_new (date self + 1)%Z (diaspora (location self)) in
  let* end_of_rest := havdalah self in
  if is_None end_of_rest then Ok false
  else if (is_shabbat today || is_yom_tov today)
          && (is_shabbat tomorrow || is_yom_tov tomorrow)
  then Ok false
  else
    let* after :=
      py_and (Ok (is_shabbat today || is_yom_tov today))
        (bind (havdalah self) (datetime_gt (time self))) in
    if after then Ok true else Ok false.

(** *** Vocabulary of the statements *)

(** The two calendar days the day-transition properties look at. *)
Definition today (self : Zmanim) : HDate :=
  HDate_new (date self) (diaspora (location self)).
Definition tomorrow (self : Zmanim) : HDate :=
  HDate_new (date self + 1)%Z (diaspora (location self)).

(** A rest day is a Shabbat or a Yom Tov. *)
Definition is_rest_day (d : HDate) : bool := is_shabbat d || is_yom_tov d.

(** The quantities [_get_utc_sun_time_deg] computes on its way: the
    position of the sun in the yearly cycle, the equation of time, the
    declination, and the argument it passes to [math.acos]. *)
Definition sun_gama (self : Zmanim) : Q :=
  2 * math_pi * ((gday_of_year self - 1) / 365).

Definition sun_eqtime (self : Zmanim) : Q :=
  let gama := sun_gama self in
  229.18 * (0.000075
            + 0.001868 * cos gama
            - 0.032077 * sin gama
            - 0.014615 * cos (2 * gama)
            - 0.040849 * sin (2 * gama)).

Definition sun_decl (self : Zmanim) : Q :=
  let gama := sun_gama self in
  0.006918
  - 0.399912 * cos gama
  + 0.070257 * sin gama
  - 0.006758 * cos (2 * gama)
  + 0.000907 * sin (2 * gama)
  - 0.002697 * cos (3 * gama)
  + 0.00148 * sin (3 * gama).

Definition acos_argument (self : Zmanim) (deg : Q) : result Q :=
  let latitude := math_pi * latitude (location self) / 180 in
  let* q := truediv (cos (math_pi * deg / 180))
              (cos latitude * cos (sun_decl self)) in
  Ok (q - tan latitude * tan (sun_decl self)).

(** The hour angle in minutes, for an argument inside [[-1, 1]]. *)
Definition hour_angle_minutes (x : Q) : Q := 720 * acos x / math_pi.

(** The havdalah value as the specification words it: three_stars when
    the offset is zero, sunset plus the offset in minutes otherwise. *)
Definition havdalah_value (self : Zmanim) (sunset three_stars : dt_datetime)
  : dt_datetime :=
  if (havdalah_offset self =? 0)%Z then three_stars
  else (sunset + havdalah_offset self * us_per_minute)%Z.

(** [motzei_shabbat_chag] as the specification words it: the public
    havdalah is defined and the instant is strictly after it. *)
Definition motzei_shabbat_chag_spec (self : Zmanim) : result bool :=
  let* end_of_rest := havdalah self in
  match end_of_rest with
  | Some h => Ok (h <? time self)%Z
  | None => Ok false
  end.

End zmanim.

(** The keys of the dict [get_utc_sun_time_full] returns. *)
Definition zmanim_keys : gset string :=
  list_to_set
    [ "sunrise"; "sunset"; "sun_hour"; "midday"; "first_light"; "talit";
      "first_stars"; "three_stars"; "plag_mincha"; "stars_out";
      "small_mincha"; "big_mincha"; "big_mincha_30"; "mga_end_shma";
      "gra_end_shma"; "mga_end_tfila"; "gra_end_tfila"; "rabbeinu_tam";
      "midnight" ].

(** ** A reference implementation of the [math] module

    Fixed-point evaluation of the trigonometric functions, with [fx_bits]
    fractional bits: Taylor series after reduction of the argument modulo
    2 pi, and bisection on the cosine for its inverse.  It is used to run
    the model on concrete inputs. *)
Module RefMath.

Definition fx_bits : Z := 48.
Definition fx_one : Z := 2 ^ fx_bits.

Definition to_fx (x : Q) : Z := Qfloor (x * inject_Z fx_one).
Definition fx_mul (a b : Z) : Z := a * b / fx_one.

(** floor (pi * 2^48) *)
Definition fx_pi : Z := 884279719003555.

(** Sum of the series whose next term is
    [- term * x2 / (k * (k + 1))], for [k], [k + 2], ... *)
Fixpoint series (fuel : nat) (k : Z) (x2 term acc : Z) : Z :=
  match fuel with
  | O => acc
  | S fuel' =>
      let term' := - (term * x2) / (fx_one * (k * (k + 1))) in
      series fuel' (k + 2) x2 term' (acc + term')
  end.

(** The argument brought to [[-pi, pi]]. *)
Definition reduce (x : Z) : Z :=
  let turns := (x + fx_pi) / (2 * fx_pi) in
  x - turns * (2 * fx_pi).

Definition fx_sin (x : Z) : Z :=
  let r := reduce x in
  series 16 2 (fx_mul r r) r r.

Definition fx_cos (x : Z) : Z :=
  let r := reduce x in
  series 16 1 (fx_mul r r) fx_one fx_one.

(** [fx_cos] decreases on [[0, pi]]: halve the interval that holds the
    angle whose cosine is [y]. *)
Fixpoint bisect (fuel : nat) (y lo hi : Z) : Z :=
  match fuel with
  | O => (lo + hi) / 2
  | S fuel' =>
      let mid := (lo + hi) / 2 in
      if y <? fx_cos mid then bisect fuel' y mid hi
      else bisect fuel' y lo mid
  end.

Definition fx_acos (y : Z) : Z := bisect 50 y 0 fx_pi.

(** A fixed-point value as a rational, rounded to odd in one more bit:
    the result is never exactly zero, like the binary64 cosine (no
    binary64 number is an odd multiple of pi / 2). *)
Definition of_fx (z : Z) : Q :=
  Qmake (2 * z + 1) (Z.to_pos (2 * fx_one)).

Definition cos (x : Q) : Q := of_fx (fx_cos (to_fx x)).
Definition sin (x : Q) : Q := of_fx (fx_sin (to_fx x)).
Definition tan (x : Q) : Q := (sin x / cos x)%Q.
Definition acos (x : Q) : Q := of_fx (fx_acos (to_fx x)).

End RefMath.

#[local] Instance ref_math : Math :=
  {| cos := RefMath.cos; sin := RefMath.sin;
     tan := RefMath.tan; acos := RefMath.acos |}.

(** ** Fixtures: the inputs of tests/test_hdate_api.py and a few more *)
Module Fixtures.

Definition utc : tzinfo := {| tzname := "UTC"; utcoffset := fun _ => 0 |}.

(** Asia/Jerusalem: UTC+3 in summer time, UTC+2 otherwise. *)
Definition jerusalem_summer : tzinfo :=
  {| tzname := "Asia/Jerusalem"; utcoffset := fun _ => 3 * us_per_hour |}.
Definition jerusalem_winter : tzinfo :=
  {| tzname := "Asia/Jerusalem"; utcoffset := fun _ => 2 * us_per_hour |}.

Definition petah_tikva (zone : tzinfo) : Location :=
  {| latitude := 32.08707; longitude := 34.88747;
     timezone := zone; diaspora := false |}.


(** The same latitude, one degree to the east. *)
Definition petah_tikva_one_degree_east (zone : tzinfo) : Location :=
  {| latitude := 32.08707; longitude := 35.88747;
     timezone := zone; diaspora := false |}.

(** Off Wrangel Island, on the antimeridian. *)
Definition wrangel : Location :=
  {| latitude := 72.3; longitude := 180;
     timezone := utc; diaspora := false |}.

(** North of Svalbard. *)
Definition arctic : Location :=
  {| latitude := 80; longitude := 0; timezone := utc; diaspora := false |}.

(** [dt.datetime(year, month, day, hour, minute)], naive. *)
Definition naive (year month day hour minute : Z) : Z :=
  mkdate year month day * us_per_day
  + hour * us_per_hour + minute * us_per_minute.

(** The calendar of Israel around Pesach 5779: Shabbat is the day whose
    ordinal is 6 modulo 7; the first day of Pesach is 2019-04-20, the
    seventh is 2019-04-26 (a Friday), Shavuot is 2019-06-09. *)
Definition israel_5779 : Calendar :=
  {| HDate_new := fun d _ =>
       {| is_shabbat := d mod 7 =? 6;
          is_yom_tov := (d =? mkdate 2019 4 20)
                        || (d =? mkdate 2019 4 26)
                        || (d =? mkdate 2019 6 9) |} |}.

(** An [astral] that answers what the README test expects at Petah Tikva
    on 2016-04-18, in UTC: first light 01:52, talit 02:18, sunrise 03:08,
    sunset 16:12, first stars 16:38, three stars 16:50. *)
Definition readme_astral : Astral :=
  let at_ (hour minute : Z) := naive 2016 4 18 hour minute in
  {| astral_sun_sun := fun _ _ =>
       list_to_map [ ("sunrise", at_ 3 8); ("sunset", at_ 16 12) ];
     astral_sun_time_of_transit := fun _ _ zenith direction =>
       match direction with
       | RISING => if Qle_bool 106 zenith then at_ 1 52 else at_ 2 18
       | SETTING => if Qle_bool 98 zenith then at_ 16 50 else at_ 16 38
       end |}.

Definition with_astral : Module :=
  import_module (Some readme_astral) (naive 2019 1 1 12 0).

(** zmanim.py imported without [astral], at noon of 2019-01-01. *)
Definition no_astral : Module := import_module None (naive 2019 1 1 12 0).

(** [Zmanim(date=moment, location=location)] with the default language
    and offsets, built when the clock reads [now]. *)
Definition Zmanim_at (M : Module) (now : Z)
    (moment_arg : option moment) (location : Location) : Zmanim :=
  match __init__ M now moment_arg location "hebrew" 18 0 with
  | Ok self => self
  | Raise _ =>
      {| location := location; language := "hebrew";
         candle_lighting_offset := 18; havdalah_offset := 0;
         date := 0; time := 0;
         astral_observer := None; astral_sun := None |}
  end.

Definition noon_2019 : Z := naive 2019 1 1 12 0.

(** Petah Tikva on 2016-04-18, and the same day a little to the east. *)
Definition petah_tikva_2016 : Zmanim :=
  Zmanim_at no_astral noon_2019 (Some (a_date (mkdate 2016 4 18)))
    (petah_tikva jerusalem_summer).
Definition petah_tikva_one_degree_east_2016 : Zmanim :=
  Zmanim_at no_astral noon_2019 (Some (a_date (mkdate 2016 4 18)))
    (petah_tikva_one_degree_east jerusalem_summer).

(** The same day with [astral] installed. *)
Definition petah_tikva_2016_astral : Zmanim :=
  Zmanim_at with_astral noon_2019 (Some (a_date (mkdate 2016 4 18)))
    (petah_tikva jerusalem_summer).

(** 2019-05-09 off Wrangel Island: the sun still sets, for less than an
    hour. *)
Definition wrangel_may : Zmanim :=
  Zmanim_at no_astral noon_2019 (Some (a_date (mkdate 2019 5 9))) wrangel.

(** 2019-06-21 north of Svalbard: the sun does not set. *)
Definition arctic_june : Zmanim :=
  Zmanim_at no_astral noon_2019 (Some (a_date (mkdate 2019 6 21))) arctic.

(** Shabbat morning, 2018-11-10 09:00. *)
Definition shabbat_morning : Zmanim :=
  Zmanim_at no_astral noon_2019
    (Some (a_datetime (naive 2018 11 10 9 0)))
    (petah_tikva jerusalem_winter).

(** The seventh day of Pesach 5779, a Friday: 2019-04-26 09:00. *)
Definition friday_yom_tov : Zmanim :=
  Zmanim_at no_astral noon_2019
    (Some (a_datetime (naive 2019 4 26 9 0)))
    (petah_tikva jerusalem_summer).

(** The table [zmanim] returns for an instance whose six markers are
    [markers]. *)
Definition table_of (self : Zmanim) (markers : Z * Z * Z * Z * Z * Z)
  : gmap string Z :=
  astimezone (timezone (location self))
    <$> ((fun value => utc_midnight (date self) + timedelta_minutes value)
           <$> zmanim_of_markers markers).

End Fixtures.

(** ** More scenarios of tests/test_hdate_api.py *)
Module Scenarios.
Import Fixtures.

(** Friday morning, 2018-11-09 09:45 (test_issur_melacha_friday_morning). *)
Definition friday_morning : Zmanim :=
  Zmanim_at no_astral noon_2019
    (Some (a_datetime (naive 2018 11 9 9 45)))
    (petah_tikva jerusalem_winter).

(** Friday evening, 2018-11-09 16:45 (test_issur_melacha_friday_evening). *)
Definition friday_evening : Zmanim :=
  Zmanim_at no_astral noon_2019
    (Some (a_datetime (naive 2018 11 9 16 45)))
    (petah_tikva jerusalem_winter).

(** Motzei Shabbat, 2018-11-10 17:45
    (test_issur_melacha_motsaei_shabbat). *)
Definition motzei_shabbat : Zmanim :=
  Zmanim_at no_astral noon_2019
    (Some (a_datetime (naive 2018 11 10 17 45)))
    (petah_tikva jerusalem_winter).

(** A Monday given as a date only, 2018-11-12
    (test_issur_melacha_weekday). *)
Definition weekday : Zmanim :=
  Zmanim_at no_astral noon_2019 (Some (a_date (mkdate 2018 11 12)))
    (petah_tikva jerusalem_winter).

(** An instance built at latitude 60 with [astral] installed (so without
    the observer and the sun table), whose [location] attribute was then
    assigned Petah Tikva. *)
Definition relocated : Zmanim :=
  let built :=
    Zmanim_at with_astral noon_2019
      (Some (a_datetime (naive 2018 11 9 9 45)))
      {| latitude := 60; longitude := 25; timezone := utc;
         diaspora := false |} in
  {| location := petah_tikva jerusalem_winter;
     language := language built;
     candle_lighting_offset := candle_lighting_offset built;
     havdalah_offset := havdalah_offset built;
     date := date built;
     time := time built;
     astral_observer := astral_observer built;
     astral_sun := astral_sun built |}.

(** The instance [relocated] started from, as [__init__] built it at
    latitude 60 with [astral] installed. *)
Definition latitude_60 : Location :=
  {| latitude := 60; longitude := 25; timezone := utc; diaspora := false |}.

Definition built_at_latitude_60 : Zmanim :=
  Zmanim_at with_astral noon_2019
    (Some (a_datetime (naive 2018 11 9 9 45))) latitude_60.

(** The opposite move: the instance built at Petah Tikva on 2016-04-18
    with [astral] installed, whose [location] attribute was then assigned
    latitude 60. *)
Definition moved_north : Zmanim :=
  set_location petah_tikva_2016_astral latitude_60.

End Scenarios.

(** ** utils/translations.py

    The text is ASCII: a [str] is a [string] of bytes below 128. *)
Module Translations.

(** hdate.htables.DESC is a named tuple (long, short); a field of a LANG
    holds a [str] or a DESC. *)
Inductive lang_field : Type :=
  | Str (s : string)
  | DESC (long short : string).

(** hdate.htables.LANG, a named tuple with one field per language: its
    fields by name. *)
Abbreviation LANG := (gmap string lang_field) (only parsing).

(** [getattr(item, lang)] *)
Definition getattr (item : LANG) (lang : string) : result lang_field :=
  match item !! lang with
  | Some value => Ok value
  | None => Raise (AttributeError lang)
  end.

Definition get_lang_value (item : LANG) (lang : string) : result string :=
  let* value := getattr item lang in
  match value with
  | DESC long _ => Ok long
  | Str s => Ok s
  end.

(** The characters [" "] and ["_"]. *)
Definition space : Ascii.ascii := Ascii.ascii_of_nat 32.
Definition underscore : Ascii.ascii := Ascii.ascii_of_nat 95.

(** [c.lower()] for one character *)
Definition lower_char (c : Ascii.ascii) : Ascii.ascii :=
  let n := Ascii.nat_of_ascii c in
  if (65 <=? n)%nat && (n <=? 90)%nat then Ascii.ascii_of_nat (n + 32) else c.

(** [s.lower()] *)
Fixpoint str_lower (s : string) : string :=
  match s with
  | EmptyString => EmptyString
  | String c rest => String (lower_char c) (str_lower rest)
  end.

(** [s.replace(" ", "_")] *)
Fixpoint replace_spaces (s : string) : string :=
  match s with
  | EmptyString => EmptyString
  | String c rest =>
      String (if Ascii.eqb c space then underscore else c)
        (replace_spaces rest)
  end.

(** The characters the pattern [[^a-z_]] does not match. *)
Definition key_char (c : Ascii.ascii) : bool :=
  let n := Ascii.nat_of_ascii c in
  ((97 <=? n)%nat && (n <=? 122)%nat) || Ascii.eqb c underscore.

(** [re.sub(r"[^a-z_]", "", s)] *)
Fixpoint strip_non_key (s : string) : string :=
  match s with
  | EmptyString => EmptyString
  | String c rest =>
      if key_char c then String c (strip_non_key rest)
      else strip_non_key rest
  end.

(** The key of an english name (lines 85-86 of [main]). *)
Definition key_of_name (english : string) : string :=
  strip_non_key (replace_spaces (str_lower english)).

(** The key [main] gives to an item that is a LANG. *)
Definition item_key (item : LANG) : result string :=
  let* english := get_lang_value item "english" in
  Ok (key_of_name english).

(** Every character of the string satisfies the test. *)
Fixpoint all_chars (test : Ascii.ascii -> bool) (s : string) : bool :=
  match s with
  | EmptyString => true
  | String c rest => test c && all_chars test rest
  end.

(** Two named tuples of htables.HOLIDAY, as an example. *)
Definition rosh_hashana_i : LANG :=
  list_to_map
    [ ("french", Str "Rosh Hashana I");
      ("english", Str "Rosh Hashana I");
      ("hebrew", DESC "Rosh Hashana A" "RH A") ].

End Translations.

(** * Properties *)

(** ** Numbers *)

Lemma py_int_nonneg (x : Q) : (0 <= x)%Q -> py_int x = Qfloor x.
Proof.
  intros Hx. unfold py_int.
  apply Qle_bool_iff in Hx. now rewrite Hx.
Qed.

Lemma py_int_neg (x : Q) : (x < 0)%Q -> py_int x = Qceiling x.
Proof.
  intros Hx. unfold py_int.
  destruct (Qle_bool 0 x) eqn:E; [|reflexivity].
  apply Qle_bool_iff in E. lra.
Qed.

(** Truncation toward zero is monotone. *)
Lemma py_int_le (x y : Q) : (x <= y)%Q -> py_int x <= py_int y.
Proof.
  intros Hxy.
  destruct (Qlt_le_dec x 0) as [Hx|Hx], (Qlt_le_dec y 0) as [Hy|Hy].
  - rewrite !py_int_neg by assumption. now apply Qceiling_resp_le.
  - rewrite py_int_neg, py_int_nonneg by assumption.
    transitivity 0.
    + change 0 with (Qceiling 0). apply Qceiling_resp_le. lra.
    + change 0 with (Qfloor 0). now apply Qfloor_resp_le.
  - lra.
  - rewrite !py_int_nonneg by assumption. now apply Qfloor_resp_le.
Qed.





(** ** The result monad *)

Lemma bind_Ok {A B} (r : result A) (k : A -> result B) (b : B) :
  bind r k = Ok b -> exists a, r = Ok a /\ k a = Ok b.
Proof. destruct r as [a|e]; simpl; [eauto|discriminate]. Qed.

Lemma truediv_Ok (x y : Q) : ~ (y == 0)%Q -> truediv x y = Ok (x / y)%Q.
Proof.
  intros Hy. unfold truediv.
  destruct (Qeq_bool y 0) eqn:E; [|reflexivity].
  apply Qeq_bool_iff in E. contradiction.
Qed.

Lemma truediv_not_ValueError (x y : Q) : truediv x y <> Raise ValueError.
Proof. unfold truediv. destruct (Qeq_bool y 0); discriminate. Qed.

(** ** The low-accuracy solver *)

Section solver.
Context `{Math}.
Implicit Types (self : Zmanim) (deg : Q).

Local Open Scope Q_scope.

(** The solver in terms of the argument it passes to [math.acos]. *)
Lemma _get_utc_sun_time_deg_eq self deg :
  _get_utc_sun_time_deg self deg =
  let* x := acos_argument self deg in
  if Qle_bool (-1) x && Qle_bool x 1 then
    Ok (py_int (720 - 4 * longitude (location self)
                - hour_angle_minutes x - sun_eqtime self),
        py_int (720 - 4 * longitude (location self)
                + hour_angle_minutes x - sun_eqtime self))
  else Ok ((-720)%Z, (-720)%Z).
Proof.
  unfold _get_utc_sun_time_deg, acos_argument, sun_decl, sun_eqtime,
    sun_gama, hour_angle_minutes, math_acos.
  destruct (truediv _ _) as [q|e] eqn:Hq; simpl.
  - destruct (Qle_bool (-1) _ && Qle_bool _ 1); reflexivity.
  - destruct e; try reflexivity.
    now apply truediv_not_ValueError in Hq.
Qed.

Lemma in_domain_iff (x : Q) :
  Qle_bool (-1) x && Qle_bool x 1 = true <-> -1 <= x <= 1.
Proof.
  rewrite andb_true_iff, !Qle_bool_iff. reflexivity.
Qed.

(** On an input whose sun never reaches the altitude, the solver answers
    [(-720, -720)]. *)
Lemma solver_unsolvable self deg x :
  acos_argument self deg = Ok x -> ~ (-1 <= x <= 1) ->
  _get_utc_sun_time_deg self deg = Ok ((-720)%Z, (-720)%Z).
Proof.
  intros Hx Hout. rewrite _get_utc_sun_time_deg_eq, Hx. simpl.
  destruct (Qle_bool (-1) x && Qle_bool x 1) eqn:E; [|reflexivity].
  apply in_domain_iff in E. contradiction.
Qed.

Lemma solver_solvable self deg x :
  acos_argument self deg = Ok x -> -1 <= x <= 1 ->
  _get_utc_sun_time_deg self deg =
  Ok (py_int (720 - 4 * longitude (location self)
              - hour_angle_minutes x - sun_eqtime self),
      py_int (720 - 4 * longitude (location self)
              + hour_angle_minutes x - sun_eqtime self)).
Proof.
  intros Hx Hin. rewrite _get_utc_sun_time_deg_eq, Hx. simpl.
  apply in_domain_iff in Hin. now rewrite Hin.
Qed.

(** The solver raises only when the division does. *)
Lemma solver_total self deg x :
  acos_argument self deg = Ok x ->
  exists rising setting,
    _get_utc_sun_time_deg self deg = Ok (rising, setting).
Proof.
  intros Hx. rewrite _get_utc_sun_time_deg_eq, Hx. simpl.
  destruct (Qle_bool (-1) x && Qle_bool x 1); eauto.
Qed.

(** When the cosine never vanishes the division cannot raise. *)
Lemma acos_argument_Ok self deg :
  (forall a, ~ cos a == 0) ->
  exists x, acos_argument self deg = Ok x.
Proof.
  intros Hcos. unfold acos_argument.
  rewrite truediv_Ok; [simpl; eauto|].
  intros Hz. apply Qmult_integral in Hz. destruct Hz as [Hz|Hz];
    now apply Hcos in Hz.
Qed.

End solver.

Section longitude.
Context `{Math}.

Local Open Scope Q_scope.



(** C5 (amended).  Whenever the argument of the inverse cosine is outside
    of [[-1, 1]], both values the solver returns are the integer -720. *)
Theorem unsolvable_altitude_returns_minus_720
    (self : Zmanim) (deg x : Q) :
  acos_argument self deg = Ok x ->
  ~ (-1 <= x <= 1) ->
  _get_utc_sun_time_deg self deg = Ok ((-720)%Z, (-720)%Z).
Proof.
  intros Hx Hout. rewrite _get_utc_sun_time_deg_eq, Hx. cbn [bind].
  destruct (Qle_bool (-1) x && Qle_bool x 1) eqn:Hin; [|reflexivity].
  apply in_domain_iff in Hin. contradiction.
Qed.

End longitude.

(** ** The solver on the fixtures *)

Section solver_fixtures.
Import Fixtures.
Local Open Scope Q_scope.

Lemma solver_petah_tikva :
  _get_utc_sun_time_deg petah_tikva_2016 90.833 = Ok (189%Z, 970%Z).
Proof. vm_compute. reflexivity. Qed.



Lemma solver_wrangel :
  _get_utc_sun_time_deg wrangel_may 90.833 = Ok ((-720)%Z, 713%Z).
Proof. vm_compute. reflexivity. Qed.

Lemma solvable_wrangel :
  exists x, acos_argument wrangel_may 90.833 = Ok x /\ -1 <= x <= 1.
Proof.
  eexists. split; [vm_compute; reflexivity|].
  split; apply Qle_bool_iff; vm_compute; reflexivity.
Qed.

Lemma unsolvable_arctic :
  exists x, acos_argument arctic_june 90.833 = Ok x /\ ~ (-1 <= x <= 1).
Proof.
  eexists. split; [vm_compute; reflexivity|].
  intros [Hlo _]. apply Qle_bool_iff in Hlo. vm_compute in Hlo.
  discriminate.
Qed.

Lemma solver_petah_tikva_one_degree_east :
  _get_utc_sun_time_deg petah_tikva_one_degree_east_2016 90.833
  = Ok (185%Z, 966%Z).
Proof. vm_compute. reflexivity. Qed.



Lemma unsolvable_altitude_returns_minus_720_witness :
  _get_utc_sun_time_deg arctic_june 90.833 = Ok ((-720)%Z, (-720)%Z).
Proof.
  destruct unsolvable_arctic as [x [Hx Hout]].
  exact (unsolvable_altitude_returns_minus_720 arctic_june 90.833 x Hx Hout).
Defined.

(** C5 (counterexample).  The value returned for an unsolvable altitude
    is not distinct from the values returned for solvable ones: on
    2019-06-21 at latitude 80 the sun never reaches the altitude, and on
    2019-05-09 at latitude 72.3, longitude 180 it does and the rising
    minute is -720. *)
Lemma degenerate_marker_not_distinct :
  ~ (forall (polar : Zmanim) (deg x : Q),
        acos_argument polar deg = Ok x -> ~ (-1 <= x <= 1) ->
        exists marker : Z,
          _get_utc_sun_time_deg polar deg = Ok (marker, marker)
          /\ forall (ordinary : Zmanim) (deg' y : Q) (rising setting : Z),
               acos_argument ordinary deg' = Ok y -> -1 <= y <= 1 ->
               _get_utc_sun_time_deg ordinary deg' = Ok (rising, setting) ->
               rising <> marker /\ setting <> marker).
Proof.
  intros Hclaim.
  destruct unsolvable_arctic as [x [Hx Hout]].
  destruct (Hclaim arctic_june 90.833 x Hx Hout) as [marker [Hm Hdistinct]].
  rewrite (solver_unsolvable _ _ _ Hx Hout) in Hm.
  injection Hm as <-.
  destruct solvable_wrangel as [y [Hy Hin]].
  destruct (Hdistinct wrangel_may 90.833 y (-720)%Z 713%Z Hy Hin
              solver_wrangel) as [Hne _].
  now apply Hne.
Qed.

End solver_fixtures.

(** ** The derived zmanim *)

Section derivation.
Context `{Math}.
Variable M : Module.
Implicit Types (self : Zmanim) (d : gmap string number).

Lemma zmanim_of_markers_dom (markers : Z * Z * Z * Z * Z * Z) :
  dom (zmanim_of_markers markers) = zmanim_keys.
Proof.
  destruct markers as [[[[[sunrise sunset] first_light] talit] first_stars]
                         three_stars].
  unfold zmanim_of_markers, zmanim_keys.
  rewrite dom_list_to_map_L. reflexivity.
Qed.

Lemma zmanim_of_markers_solved
    (sunrise sunset first_light talit first_stars three_stars : Z) :
  let d := zmanim_of_markers
             (sunrise, sunset, first_light, talit, first_stars,
              three_stars) in
  d !! "sunrise" = Some (Int sunrise)
  /\ d !! "sunset" = Some (Int sunset)
  /\ d !! "first_light" = Some (Int first_light)
  /\ d !! "talit" = Some (Int talit)
  /\ d !! "first_stars" = Some (Int first_stars)
  /\ d !! "three_stars" = Some (Int three_stars).
Proof. repeat split; vm_compute; reflexivity. Qed.

Lemma zmanim_of_markers_sun_hour
    (sunrise sunset first_light talit first_stars three_stars : Z) :
  let d := zmanim_of_markers
             (sunrise, sunset, first_light, talit, first_stars,
              three_stars) in
  d !! "sun_hour" = Some (Int ((sunset - sunrise) / 12))
  /\ d !! "midday" = Some (Int ((sunset + sunrise) / 2)).
Proof. split; vm_compute; reflexivity. Qed.

Lemma get_utc_sun_time_full_Ok self d :
  get_utc_sun_time_full M self = Ok d ->
  exists markers, d = zmanim_of_markers markers.
Proof.
  unfold get_utc_sun_time_full. intros Hd.
  apply bind_Ok in Hd. destruct Hd as [markers [_ Hd]].
  injection Hd as <-. eauto.
Qed.

(** C4 (amended).  In every result of [get_utc_sun_time_full], sun_hour
    is the integer floor of (sunset - sunrise) / 12 and midday is the
    integer floor of (sunset + sunrise) / 2: both are whole minutes. *)
Theorem sun_hour_and_midday_are_floors self d :
  get_utc_sun_time_full M self = Ok d ->
  exists sunrise sunset sun_hour midday : Z,
    d !! "sunrise" = Some (Int sunrise)
    /\ d !! "sunset" = Some (Int sunset)
    /\ d !! "sun_hour" = Some (Int sun_hour)
    /\ d !! "midday" = Some (Int midday)
    /\ 12 * sun_hour <= sunset - sunrise < 12 * sun_hour + 12
    /\ 2 * midday <= sunset + sunrise < 2 * midday + 2.
Proof.
  intros Hd. apply get_utc_sun_time_full_Ok in Hd.
  destruct Hd as [[[[[[sunrise sunset] first_light] talit] first_stars]
                     three_stars] ->].
  exists sunrise, sunset, ((sunset - sunrise) / 12), ((sunset + sunrise) / 2).
  destruct (zmanim_of_markers_solved sunrise sunset first_light talit
              first_stars three_stars) as (-> & -> & _).
  destruct (zmanim_of_markers_sun_hour sunrise sunset first_light talit
              first_stars three_stars) as (-> & ->).
  repeat split.
  - apply Z.mul_div_le. lia.
  - pose proof (Z.mod_pos_bound (sunset - sunrise) 12).
    pose proof (Z.div_mod (sunset - sunrise) 12). lia.
  - apply Z.mul_div_le. lia.
  - pose proof (Z.mod_pos_bound (sunset + sunrise) 2).
    pose proof (Z.div_mod (sunset + sunrise) 2). lia.
Qed.

Lemma low_accuracy_markers_Ok self :
  (forall a, ~ (cos a == 0)%Q) ->
  exists markers, low_accuracy_markers self = Ok markers.
Proof.
  intros Hcos. unfold low_accuracy_markers.
  assert (Hsolve : forall deg, exists rising setting,
             _get_utc_sun_time_deg self deg = Ok (rising, setting)).
  { intros deg. destruct (acos_argument_Ok self deg Hcos) as [x Hx].
    exact (solver_total _ _ _ Hx). }
  destruct (Hsolve 90.833%Q) as (sunrise & sunset & ->).
  destruct (Hsolve 106.1%Q) as (first_light & ? & ->).
  destruct (Hsolve 101.0%Q) as (talit & ? & ->).
  destruct (Hsolve 96.0%Q) as (? & first_stars & ->).
  destruct (Hsolve 98.5%Q) as (? & three_stars & ->).
  simpl. eauto.
Qed.

(** The markers when the sun never reaches the altitude of sunrise. *)
Lemma low_accuracy_markers_polar self markers x :
  low_accuracy_markers self = Ok markers ->
  acos_argument self 90.833 = Ok x -> ~ (-1 <= x <= 1)%Q ->
  exists first_light talit first_stars three_stars,
    markers = (-720, -720, first_light, talit, first_stars, three_stars).
Proof.
  intros Hm Hx Hout. unfold low_accuracy_markers in Hm.
  rewrite (solver_unsolvable _ _ _ Hx Hout) in Hm. simpl in Hm.
  destruct (_get_utc_sun_time_deg self 106.1) as [[? ?]|]; [|discriminate].
  destruct (_get_utc_sun_time_deg self 101.0) as [[? ?]|]; [|discriminate].
  destruct (_get_utc_sun_time_deg self 96.0) as [[? ?]|]; [|discriminate].
  destruct (_get_utc_sun_time_deg self 98.5) as [[? ?]|]; [|discriminate].
  simpl in Hm. injection Hm as <-. eauto.
Qed.

End derivation.

Section paths.
Context `{Math}.
Variable M : Module.

Local Open Scope Q_scope.

(** The test of [get_utc_sun_time_full] is the negation of the test of
    [__init__]. *)
Lemma low_accuracy_test (latitude : Q) :
  negb (_USE_ASTRAL M) || Qgt_bool (Qabs latitude) MAX_LATITUDE_ASTRAL
  = negb (_USE_ASTRAL M && Qle_bool (Qabs latitude) MAX_LATITUDE_ASTRAL).
Proof. unfold Qgt_bool. now rewrite negb_andb. Qed.

Lemma __init___location now date_arg loc lang cl hav self :
  __init__ M now date_arg loc lang cl hav = Ok self ->
  location self = loc.
Proof.
  unfold __init__. intros Hinit.
  apply bind_Ok in Hinit. destruct Hinit as [[d t] [_ Hinit]].
  destruct (astral M);
    [destruct (Qle_bool (Qabs (latitude loc)) MAX_LATITUDE_ASTRAL)|];
    injection Hinit as <-; reflexivity.
Qed.

(** C6 (the defect).  The latitude test is made twice.  [__init__] makes
    it once, and stores the observer and the sun table of [astral] exactly
    when it passes.  [get_utc_sun_time_full] makes it again at every call,
    on the location the instance holds at that moment.  On an instance as
    built the two agree.  After an assignment to the [location] attribute
    the next call follows the new latitude, not the construction: the
    branch varies between calls on one instance, and an instance built for
    the low-accuracy branch that is moved to a latitude of at most 50
    degrees takes the astral branch and raises AttributeError, the sun
    table never having been stored. *)
Theorem branch_selected_at_each_call
    (now : Z) (date_arg : option moment) (loc loc' : Location)
    (lang : string) (cl hav : Z) (self : Zmanim) :
  __init__ M now date_arg loc lang cl hav = Ok self ->
  let precise (l : Location) :=
    _USE_ASTRAL M && Qle_bool (Qabs (latitude l)) MAX_LATITUDE_ASTRAL in
  let moved := set_location self loc' in
  (if precise loc
   then is_Some (astral_observer self) /\ is_Some (astral_sun self)
   else astral_observer self = None /\ astral_sun self = None)
  /\ get_utc_sun_time_full M self
     = result_map zmanim_of_markers
         (if precise loc then astral_markers M self
          else low_accuracy_markers self)
  /\ get_utc_sun_time_full M moved
     = result_map zmanim_of_markers
         (if precise loc' then astral_markers M moved
          else low_accuracy_markers moved)
  /\ (precise loc = false -> precise loc' = true ->
      get_utc_sun_time_full M moved = Raise (AttributeError "astral_sun")).
Proof.
  intros Hinit precise moved.
  pose proof (__init___location _ _ _ _ _ _ _ Hinit) as Hloc.
  assert (Hstored :
            if precise loc
            then is_Some (astral_observer self) /\ is_Some (astral_sun self)
            else astral_observer self = None /\ astral_sun self = None).
  { unfold __init__ in Hinit.
    apply bind_Ok in Hinit. destruct Hinit as [[d t] [_ Hinit]].
    subst precise. unfold _USE_ASTRAL. cbv beta.
    destruct (astral M) as [pkg|]; simpl in *.
    - destruct (Qle_bool (Qabs (latitude loc)) MAX_LATITUDE_ASTRAL);
        injection Hinit as <-; simpl; split; eauto.
    - injection Hinit as <-. simpl. split; reflexivity. }
  assert (Hcall : forall z : Zmanim,
            get_utc_sun_time_full M z
            = result_map zmanim_of_markers
                (if precise (location z) then astral_markers M z
                 else low_accuracy_markers z)).
  { intros z. unfold get_utc_sun_time_full. rewrite low_accuracy_test.
    subst precise. cbv beta.
    destruct (_USE_ASTRAL M
              && Qle_bool (Qabs (latitude (location z))) MAX_LATITUDE_ASTRAL);
      reflexivity. }
  split; [exact Hstored|]. split; [|split].
  - rewrite Hcall, Hloc. reflexivity.
  - rewrite Hcall. reflexivity.
  - intros Hbuilt Hmoved. rewrite Hcall.
    change (location moved) with loc'. rewrite Hmoved.
    rewrite Hbuilt in Hstored. destruct Hstored as [_ Hsun].
    unfold astral_markers. change (astral_sun moved) with (astral_sun self).
    rewrite Hsun. reflexivity.
Qed.

(** C10.  On the low-accuracy path, with a cosine that never returns
    zero, [get_utc_sun_time_full] raises nothing and returns a dict that
    has every zman key, at every latitude and longitude.  When the sun
    never reaches the altitude of sunrise, sunrise and sunset are both
    -720 and the derived values are ordinary numbers computed from them:
    sun_hour is 0, midday is -720, midnight is 0. *)
Theorem low_accuracy_path_is_total (self : Zmanim) :
  (forall a, ~ cos a == 0) ->
  negb (_USE_ASTRAL M)
  || Qgt_bool (Qabs (latitude (location self))) MAX_LATITUDE_ASTRAL = true ->
  exists d : gmap string number,
    get_utc_sun_time_full M self = Ok d
    /\ dom d = zmanim_keys
    /\ forall x, acos_argument self 90.833 = Ok x -> ~ (-1 <= x <= 1) ->
         d !! "sunrise" = Some (Int (-720))
         /\ d !! "sunset" = Some (Int (-720))
         /\ d !! "sun_hour" = Some (Int 0)
         /\ d !! "midday" = Some (Int (-720))
         /\ d !! "big_mincha_30" = Some (Int (-690))
         /\ (exists v, d !! "plag_mincha" = Some (Float v) /\ v == -720)
         /\ (exists v, d !! "small_mincha" = Some (Float v) /\ v == -720)
         /\ (exists v, d !! "rabbeinu_tam" = Some (Float v) /\ v == -720)
         /\ (exists v, d !! "midnight" = Some (Float v) /\ v == 0).
Proof.
  intros Hcos Hlow.
  destruct (low_accuracy_markers_Ok self Hcos) as [markers Hm].
  exists (zmanim_of_markers markers). split; [|split].
  - unfold get_utc_sun_time_full. rewrite Hlow, Hm. reflexivity.
  - apply zmanim_of_markers_dom.
  - intros x Hx Hout.
    destruct (low_accuracy_markers_polar self markers x Hm Hx Hout)
      as (first_light & talit & first_stars & three_stars & ->).
    repeat split; try (vm_compute; reflexivity);
      eexists; (split; [reflexivity|reflexivity]).
Qed.

End paths.

(** ** The reference [math] module *)

Lemma ref_cos_nonzero (a : Q) : ~ (RefMath.cos a == 0)%Q.
Proof.
  unfold RefMath.cos, RefMath.of_fx, Qeq. simpl. lia.
Qed.

(** ** Candle lighting, havdalah and issur melacha *)

Section transitions.
Context `{Math} `{Calendar}.
Variable M : Module.
Implicit Types (self : Zmanim) (times : gmap string dt_datetime).

(** Once the table of zmanim is computed, its sunset and three_stars
    entries exist. *)
Lemma zmanim_entries self times :
  zmanim M self = Ok times ->
  exists sunset three_stars : dt_datetime,
    times !! "sunset" = Some sunset
    /\ times !! "three_stars" = Some three_stars.
Proof.
  unfold zmanim, utc_zmanim. intros Hz.
  apply bind_Ok in Hz. destruct Hz as [utc [Hutc Hz]].
  apply bind_Ok in Hutc. destruct Hutc as [d [Hd Hutc]].
  injection Hz as <-. injection Hutc as <-.
  apply get_utc_sun_time_full_Ok in Hd.
  destruct Hd as [[[[[[sunrise sunset] first_light] talit] first_stars]
                     three_stars] ->].
  destruct (zmanim_of_markers_solved sunrise sunset first_light talit
              first_stars three_stars) as (_ & Hs & _ & _ & _ & Ht).
  eexists _, _. rewrite !lookup_fmap, Hs, Ht. split; reflexivity.
Qed.

Lemma _havdalah_datetime_Ok self times sunset three_stars :
  zmanim M self = Ok times ->
  times !! "sunset" = Some sunset ->
  times !! "three_stars" = Some three_stars ->
  _havdalah_datetime M self = Ok (havdalah_value self sunset three_stars).
Proof.
  intros Hz Hs Ht. unfold _havdalah_datetime, havdalah_value, getitem.
  rewrite Hz. cbn [bind]. rewrite Hs, Ht.
  destruct (havdalah_offset self =? 0); reflexivity.
Qed.

(** The second branch of [candle_lighting]. *)
Lemma sunset_minus_offset_Ok self times sunset :
  zmanim M self = Ok times ->
  times !! "sunset" = Some sunset ->
  (let* times := zmanim M self in
   let* sunset := getitem times "sunset" in
   Ok (Some (sunset
             - timedelta_minutes (Int (candle_lighting_offset self)))))
  = Ok (Some (sunset - candle_lighting_offset self * us_per_minute)).
Proof.
  intros Hz Hs. rewrite Hz. unfold getitem. cbn [bind]. now rewrite Hs.
Qed.

(** C3.  Once the table of zmanim is computed, the public havdalah is
    defined exactly when today is a rest day and tomorrow is not (so it
    is None when both are rest days and when today is not one), and when
    defined it is the havdalah value: three_stars when the havdalah
    offset is 0, sunset plus the offset in minutes otherwise. *)
Theorem havdalah_defined_iff self times :
  zmanim M self = Ok times ->
  exists r : option dt_datetime,
    havdalah M self = Ok r
    /\ (r <> None <->
          is_rest_day (today self) = true
          /\ is_rest_day (tomorrow self) = false)
    /\ forall h, r = Some h ->
         exists sunset three_stars,
           times !! "sunset" = Some sunset
           /\ times !! "three_stars" = Some three_stars
           /\ (havdalah_offset self = 0 -> h = three_stars)
           /\ (havdalah_offset self <> 0 ->
                 h = sunset + havdalah_offset self * us_per_minute).
Proof.
  intros Hz.
  destruct (zmanim_entries self times Hz) as (sunset & three_stars & Hs & Ht).
  pose proof (_havdalah_datetime_Ok self times sunset three_stars Hz Hs Ht)
    as Hh.
  unfold havdalah, today, tomorrow, is_rest_day. rewrite Hh.
  destruct (is_shabbat _ || is_yom_tov _);
    [destruct (is_shabbat _ || is_yom_tov _)|]; simpl.
  - exists None. split; [reflexivity|]. split; [|discriminate].
    split; [congruence|]. intros [_ ?]. discriminate.
  - eexists. split; [reflexivity|]. split.
    + split; [auto|discriminate].
    + intros h [= <-]. exists sunset, three_stars.
      unfold havdalah_value. repeat split; try assumption.
      * intros ->. reflexivity.
      * intros Hne. apply Z.eqb_neq in Hne. now rewrite Hne.
  - exists None. split; [reflexivity|]. split; [|discriminate].
    split; [congruence|]. intros [? _]. discriminate.
Qed.

(** C1.  Once the table of zmanim is computed, issur_melacha_in_effect
    returns true exactly when today and tomorrow are both rest days, or
    today is a rest day and the havdalah exists and the instant is
    strictly before it, or tomorrow is a rest day and the candle lighting
    exists and the instant is at or after it; otherwise it returns
    false. *)
Theorem issur_melacha_in_effect_iff self times :
  zmanim M self = Ok times ->
  exists b : bool,
    issur_melacha_in_effect M self = Ok b
    /\ (b = true <->
          (is_rest_day (today self) = true
           /\ is_rest_day (tomorrow self) = true)
          \/ (is_rest_day (today self) = true
              /\ exists h, havdalah M self = Ok (Some h) /\ time self < h)
          \/ (is_rest_day (tomorrow self) = true
              /\ exists c, candle_lighting M self = Ok (Some c)
                           /\ c <= time self)).
Proof.
  intros Hz.
  destruct (zmanim_entries self times Hz) as (sunset & three_stars & Hs & Ht).
  pose proof (_havdalah_datetime_Ok self times sunset three_stars Hz Hs Ht)
    as Hh.
  pose proof (sunset_minus_offset_Ok self times sunset Hz Hs) as Hc.
  unfold issur_melacha_in_effect, havdalah, candle_lighting, today,
    tomorrow, is_rest_day.
  rewrite Hh, Hc. clear Hh Hc.
  destruct (is_shabbat (HDate_new (date self) _)),
           (is_yom_tov (HDate_new (date self) _)),
           (is_shabbat (HDate_new (date self + 1) _)),
           (is_yom_tov (HDate_new (date self + 1) _)); simpl;
    try (exists true; split; [reflexivity|]; split; [auto|reflexivity]);
    try match goal with
    | |- context [if ?x <? ?y then _ else _] =>
        destruct (Z.ltb_spec x y)
    | |- context [if ?x <=? ?y then _ else _] =>
        destruct (Z.leb_spec x y)
    end;
    eexists; (split; [reflexivity|]);
    (split;
     [ intros Hb; try discriminate;
       first [ right; left; split; [reflexivity|];
               eexists; split; [reflexivity|assumption]
             | right; right; split; [reflexivity|];
               eexists; split; [reflexivity|assumption] ]
     | intros [[? ?]|[[? [h [[= <-] ?]]]|[? [c [[= <-] ?]]]]];
       first [reflexivity | discriminate | lia] ]).
Qed.

(** The guard of [motzei_shabbat_chag] on two rest days in a row is
    implied by the havdalah being defined. *)
Lemma havdalah_defined_rest_day self h :
  havdalah M self = Ok (Some h) ->
  is_rest_day (today self) = true /\ is_rest_day (tomorrow self) = false.
Proof.
  unfold havdalah, today, tomorrow, is_rest_day.
  destruct (is_shabbat _ || is_yom_tov _);
    [destruct (is_shabbat _ || is_yom_tov _)|]; try discriminate.
  auto.
Qed.

(** C9.  [motzei_shabbat_chag] computes what the specification says: it
    raises what the public havdalah raises, and otherwise it is true
    exactly when the havdalah is defined and the instant is strictly
    after it.  The guard on today and tomorrow both being rest days, and
    the test that today is a rest day, change nothing. *)
Theorem motzei_shabbat_chag_refines self :
  motzei_shabbat_chag M self = motzei_shabbat_chag_spec M self.
Proof.
  unfold motzei_shabbat_chag, motzei_shabbat_chag_spec, havdalah.
  destruct (is_shabbat (HDate_new (date self) _)
            || is_yom_tov (HDate_new (date self) _));
    [destruct (is_shabbat (HDate_new (date self + 1) _)
               || is_yom_tov (HDate_new (date self + 1) _))|];
    try reflexivity.
  destruct (_havdalah_datetime M self) as [h|e]; simpl; [|reflexivity].
  destruct (h <? time self); reflexivity.
Qed.

(** What [candle_lighting] returns on the eve of a Shabbat that is not a
    Yom Tov, whatever today is. *)
Lemma candle_lighting_eve_of_plain_shabbat self times sunset :
  zmanim M self = Ok times ->
  times !! "sunset" = Some sunset ->
  is_shabbat (tomorrow self) = true ->
  is_yom_tov (tomorrow self) = false ->
  candle_lighting M self
  = Ok (Some (sunset - candle_lighting_offset self * us_per_minute)).
Proof.
  intros Hz Hs Hshabbat Hyt. unfold candle_lighting.
  unfold tomorrow in Hshabbat, Hyt. rewrite Hshabbat, Hyt.
  rewrite andb_false_r. cbn [orb].
  now apply sunset_minus_offset_Ok with (times := times).
Qed.

(** The table of zmanim on the low-accuracy path, from the markers. *)
Lemma zmanim_low_accuracy self markers :
  _USE_ASTRAL M = false ->
  low_accuracy_markers self = Ok markers ->
  zmanim M self
  = Ok (astimezone (timezone (location self))
          <$> ((fun value => utc_midnight (date self)
                             + timedelta_minutes value)
                 <$> zmanim_of_markers markers)).
Proof.
  intros Hno Hm. unfold zmanim, utc_zmanim, get_utc_sun_time_full.
  rewrite Hno, Hm. reflexivity.
Qed.

End transitions.

(** ** Construction *)

(** C8 (the defect).  When the [date] argument is left out, the date and
    the time of the instance are those of the clock when zmanim.py was
    imported, whatever the clock reads at the construction: two instances
    built at different times share that instant. *)
Theorem default_moment_is_import_time
    (astral_package : option Astral) (import_time now : Z)
    (loc : Location) (lang : string) (cl hav : Z) :
  result_map (fun self => (date self, time self))
    (__init__ (import_module astral_package import_time) now None
       loc lang cl hav)
  = Ok (import_time / us_per_day,
        localize_to_utc (timezone loc) import_time).
Proof.
  unfold __init__, import_module. simpl.
  destruct astral_package;
    [destruct (Qle_bool (Qabs (latitude loc)) MAX_LATITUDE_ASTRAL)|];
    reflexivity.
Qed.

(** With a date given, the time of the instance is the clock at the
    construction. *)
Lemma date_only_moment_is_fresh
    (M : Module) (now : Z) (d : dt_date)
    (loc : Location) (lang : string) (cl hav : Z) :
  result_map (fun self => (date self, time self))
    (__init__ M now (Some (a_date d)) loc lang cl hav)
  = Ok (d, localize_to_utc (timezone loc) now).
Proof.
  unfold __init__. simpl.
  destruct (astral M);
    [destruct (Qle_bool (Qabs (latitude loc)) MAX_LATITUDE_ASTRAL)|];
    reflexivity.
Qed.

(** ** The fixtures *)

Section fixture_results.
Import Fixtures.
#[local] Existing Instance israel_5779.

Lemma markers_petah_tikva :
  low_accuracy_markers petah_tikva_2016
  = Ok (189, 970, 113, 139, 995, 1008).
Proof. vm_compute. reflexivity. Qed.

Lemma markers_shabbat_morning :
  low_accuracy_markers shabbat_morning
  = Ok (243, 885, 168, 193, 910, 923).
Proof. vm_compute. reflexivity. Qed.

Lemma markers_friday_yom_tov :
  low_accuracy_markers friday_yom_tov
  = Ok (181, 975, 103, 130, 1001, 1013).
Proof. vm_compute. reflexivity. Qed.

Lemma full_petah_tikva :
  get_utc_sun_time_full no_astral petah_tikva_2016
  = Ok (zmanim_of_markers (189, 970, 113, 139, 995, 1008)).
Proof.
  unfold get_utc_sun_time_full.
  change (_USE_ASTRAL no_astral) with false. cbn [negb orb].
  now rewrite markers_petah_tikva.
Qed.

Lemma markers_readme :
  astral_markers with_astral petah_tikva_2016_astral
  = Ok (188, 972, 112, 138, 998, 1010).
Proof. vm_compute. reflexivity. Qed.

Lemma full_readme :
  get_utc_sun_time_full with_astral petah_tikva_2016_astral
  = Ok (zmanim_of_markers (188, 972, 112, 138, 998, 1010)).
Proof.
  unfold get_utc_sun_time_full.
  replace (negb (_USE_ASTRAL with_astral)
           || Qgt_bool
                (Qabs (latitude (location petah_tikva_2016_astral)))
                MAX_LATITUDE_ASTRAL)
    with false by reflexivity.
  now rewrite markers_readme.
Qed.

(** The README example of tests/test_hdate_api.py, with [astral]: the
    expected local times 06:08 (sunrise), 09:23 (end of shma, GRA),
    12:40 (midday), 13:10:30 (big mincha), 17:50:45 (plag mincha) and
    19:12 (sunset), here in UTC minutes (local time is UTC+3). *)
Example readme_example :
  let d := zmanim_of_markers (188, 972, 112, 138, 998, 1010) in
  d !! "sunrise" = Some (Int (3 * 60 + 8))
  /\ d !! "midday" = Some (Int (9 * 60 + 40))
  /\ d !! "sunset" = Some (Int (16 * 60 + 12))
  /\ (exists v, d !! "gra_end_shma" = Some (Float v)
                /\ (v == 6 * 60 + 23)%Q)
  /\ (exists v, d !! "big_mincha" = Some (Float v)
                /\ (v == 10 * 60 + 10.5)%Q)
  /\ (exists v, d !! "plag_mincha" = Some (Float v)
                /\ (v == 14 * 60 + 50.75)%Q).
Proof.
  repeat split; try (vm_compute; reflexivity);
    eexists; (split; [reflexivity|reflexivity]).
Qed.

(** C4 (counterexample).  At Petah Tikva on 2016-04-18 the low-accuracy
    path gives sunrise 189 and sunset 970; sun_hour is 65, not 781 / 12,
    and midday is 579, not 1159 / 2. *)
Lemma sun_hour_is_not_the_exact_twelfth :
  ~ (forall (M : Module) (self : Zmanim) (d : gmap string number)
            (sunrise sunset sun_hour midday : number),
        get_utc_sun_time_full M self = Ok d ->
        d !! "sunrise" = Some sunrise ->
        d !! "sunset" = Some sunset ->
        d !! "sun_hour" = Some sun_hour ->
        d !! "midday" = Some midday ->
        (number_value sun_hour
         == (number_value sunset - number_value sunrise) / 12)%Q
        /\ (number_value midday
            == (number_value sunset + number_value sunrise) / 2)%Q).
Proof.
  intros Hclaim.
  destruct (Hclaim no_astral petah_tikva_2016 _
              (Int 189) (Int 970) (Int 65) (Int 579) full_petah_tikva)
    as [Hhour _]; try (vm_compute; reflexivity).
  vm_compute in Hhour. discriminate.
Qed.

Lemma sun_hour_and_midday_are_floors_witness :
  exists sunrise sunset sun_hour midday : Z,
    zmanim_of_markers (189, 970, 113, 139, 995, 1008) !! "sunrise"
    = Some (Int sunrise)
    /\ zmanim_of_markers (189, 970, 113, 139, 995, 1008) !! "sunset"
       = Some (Int sunset)
    /\ zmanim_of_markers (189, 970, 113, 139, 995, 1008) !! "sun_hour"
       = Some (Int sun_hour)
    /\ zmanim_of_markers (189, 970, 113, 139, 995, 1008) !! "midday"
       = Some (Int midday)
    /\ 12 * sun_hour <= sunset - sunrise < 12 * sun_hour + 12
    /\ 2 * midday <= sunset + sunrise < 2 * midday + 2.
Proof.
  exact (sun_hour_and_midday_are_floors no_astral petah_tikva_2016 _
           full_petah_tikva).
Defined.

Lemma low_accuracy_path_is_total_witness :
  exists d : gmap string number,
    get_utc_sun_time_full no_astral arctic_june = Ok d
    /\ dom d = zmanim_keys
    /\ forall x, acos_argument arctic_june 90.833 = Ok x ->
         ~ (-1 <= x <= 1)%Q ->
         d !! "sunrise" = Some (Int (-720))
         /\ d !! "sunset" = Some (Int (-720))
         /\ d !! "sun_hour" = Some (Int 0)
         /\ d !! "midday" = Some (Int (-720))
         /\ d !! "big_mincha_30" = Some (Int (-690))
         /\ (exists v, d !! "plag_mincha" = Some (Float v) /\ (v == -720)%Q)
         /\ (exists v, d !! "small_mincha" = Some (Float v)
                       /\ (v == -720)%Q)
         /\ (exists v, d !! "rabbeinu_tam" = Some (Float v)
                       /\ (v == -720)%Q)
         /\ (exists v, d !! "midnight" = Some (Float v) /\ (v == 0)%Q).
Proof.
  apply (low_accuracy_path_is_total no_astral arctic_june).
  - exact ref_cos_nonzero.
  - reflexivity.
Defined.

Lemma zmanim_shabbat_morning :
  zmanim no_astral shabbat_morning
  = Ok (table_of shabbat_morning (243, 885, 168, 193, 910, 923)).
Proof.
  apply zmanim_low_accuracy; [reflexivity|exact markers_shabbat_morning].
Qed.

Lemma zmanim_friday_yom_tov :
  zmanim no_astral friday_yom_tov
  = Ok (table_of friday_yom_tov (181, 975, 103, 130, 1001, 1013)).
Proof.
  apply zmanim_low_accuracy; [reflexivity|exact markers_friday_yom_tov].
Qed.

Lemma havdalah_shabbat_morning :
  havdalah no_astral shabbat_morning
  = Ok (Some (utc_midnight (mkdate 2018 11 10) + 923 * us_per_minute)).
Proof. vm_compute. reflexivity. Qed.

(** Shabbat morning (test_issur_melacha_shabbat_morning). *)
Lemma issur_melacha_in_effect_iff_witness :
  issur_melacha_in_effect no_astral shabbat_morning = Ok true.
Proof.
  destruct (issur_melacha_in_effect_iff no_astral shabbat_morning _
              zmanim_shabbat_morning) as [b [Hb Hiff]].
  rewrite Hb. f_equal. apply Hiff.
  right. left. split; [reflexivity|].
  eexists. split; [exact havdalah_shabbat_morning|].
  vm_compute. reflexivity.
Defined.

Lemma havdalah_defined_iff_witness :
  exists r : option Z,
    havdalah no_astral shabbat_morning = Ok r /\ r <> None.
Proof.
  destruct (havdalah_defined_iff no_astral shabbat_morning _
              zmanim_shabbat_morning) as [r [Hr [Hdef _]]].
  exists r. split; [exact Hr|].
  apply Hdef. split; reflexivity.
Defined.

(** C2 (the defect).  On 2019-04-26, the seventh day of Pesach and a
    Friday, today is a rest day (Yom Tov) and tomorrow is one (Shabbat),
    and [candle_lighting] returns sunset (975) minus the offset of 18
    minutes, not the havdalah value (three_stars, 1013). *)
Theorem candle_lighting_on_friday_yom_tov :
  is_rest_day (today friday_yom_tov) = true
  /\ is_rest_day (tomorrow friday_yom_tov) = true
  /\ candle_lighting no_astral friday_yom_tov
     = Ok (Some (utc_midnight (mkdate 2019 4 26)
                 + (975 - 18) * us_per_minute))
  /\ _havdalah_datetime no_astral friday_yom_tov
     = Ok (utc_midnight (mkdate 2019 4 26) + 1013 * us_per_minute).
Proof.
  split; [reflexivity|]. split; [reflexivity|]. split.
  - rewrite (candle_lighting_eve_of_plain_shabbat no_astral friday_yom_tov
               _ (utc_midnight (mkdate 2019 4 26) + 975 * us_per_minute)
               zmanim_friday_yom_tov);
      [reflexivity|vm_compute; reflexivity|reflexivity|reflexivity].
  - rewrite (_havdalah_datetime_Ok no_astral friday_yom_tov _
               (utc_midnight (mkdate 2019 4 26) + 975 * us_per_minute)
               (utc_midnight (mkdate 2019 4 26) + 1013 * us_per_minute)
               zmanim_friday_yom_tov);
      [reflexivity|vm_compute; reflexivity|vm_compute; reflexivity].
Qed.

End fixture_results.

(** * Further properties of zmanim.py *)

(** ** The five day-transition properties together *)

Section day_states.
Context `{Math} `{Calendar}.
Variable M : Module.
Implicit Types (self : Zmanim) (times : gmap string Z).

(** All five properties as functions of the two rest-day flags, the
    instant, the havdalah value and sunset minus the offset, once the
    table of zmanim is computed. *)
Lemma transitions_normal_form self times sunset three_stars :
  zmanim M self = Ok times ->
  times !! "sunset" = Some sunset ->
  times !! "three_stars" = Some three_stars ->
  let T := is_rest_day (today self) in
  let R := is_rest_day (tomorrow self) in
  let hv := havdalah_value self sunset three_stars in
  let cl := sunset - candle_lighting_offset self * us_per_minute in
  let lighting := if T && is_yom_tov (tomorrow self) then hv else cl in
  havdalah M self = Ok (if T && negb R then Some hv else None)
  /\ candle_lighting M self = Ok (if R then Some lighting else None)
  /\ issur_melacha_in_effect M self
     = Ok (T && R || T && (time self <? hv) || R && (lighting <=? time self))
  /\ erev_shabbat_chag M self = Ok (R && negb T && (time self <? cl))
  /\ motzei_shabbat_chag M self = Ok (T && negb R && (hv <? time self)).
Proof.
  intros Hz Hs Ht.
  pose proof (_havdalah_datetime_Ok M self times sunset three_stars Hz Hs Ht)
    as Hh.
  pose proof (sunset_minus_offset_Ok M self times sunset Hz Hs) as Hc.
  unfold issur_melacha_in_effect, erev_shabbat_chag, motzei_shabbat_chag,
    havdalah, candle_lighting, today, tomorrow, is_rest_day.
  rewrite Hh, Hc. clear Hh Hc.
  destruct (is_shabbat (HDate_new (date self) _)),
           (is_yom_tov (HDate_new (date self) _)),
           (is_shabbat (HDate_new (date self + 1) _)),
           (is_yom_tov (HDate_new (date self + 1) _)); cbn;
    repeat split;
    repeat match goal with
      | |- context [?x <? ?y] => destruct (x <? y)
      | |- context [?x <=? ?y] => destruct (x <=? y)
      end; reflexivity.
Qed.

(** X1.  Once the table of zmanim is computed, erev_shabbat_chag returns
    true exactly when today is not a rest day, tomorrow is one, and the
    instant is strictly before the candle lighting. *)
Theorem erev_shabbat_chag_iff self times :
  zmanim M self = Ok times ->
  exists b : bool,
    erev_shabbat_chag M self = Ok b
    /\ (b = true <->
          is_rest_day (today self) = false
          /\ is_rest_day (tomorrow self) = true
          /\ exists c, candle_lighting M self = Ok (Some c)
                       /\ time self < c).
Proof.
  intros Hz.
  destruct (zmanim_entries M self times Hz) as (sunset & three_stars & Hs & Ht).
  destruct (transitions_normal_form self times sunset three_stars Hz Hs Ht)
    as (_ & Hc & _ & He & _).
  rewrite He, Hc. eexists. split; [reflexivity|].
  destruct (is_rest_day (today self)), (is_rest_day (tomorrow self)); cbn;
    try (split; [discriminate|intros (? & ? & ?); discriminate]).
  split.
  - intros Hlt. apply Z.ltb_lt in Hlt. eauto 6.
  - intros (_ & _ & c & [= <-] & Hlt). now apply Z.ltb_lt.
Qed.

(** X2.  Once the table of zmanim is computed, candle_lighting is defined
    exactly when tomorrow is a rest day.  On the eve of a rest day after
    an ordinary day it is sunset minus the offset in minutes; between a
    rest day and a Yom Tov it is the havdalah value. *)
Theorem candle_lighting_defined_iff self times :
  zmanim M self = Ok times ->
  exists (r : option Z) (sunset three_stars : Z),
    candle_lighting M self = Ok r
    /\ times !! "sunset" = Some sunset
    /\ times !! "three_stars" = Some three_stars
    /\ (r <> None <-> is_rest_day (tomorrow self) = true)
    /\ (is_rest_day (today self) = false ->
        is_rest_day (tomorrow self) = true ->
        r = Some (sunset - candle_lighting_offset self * us_per_minute))
    /\ (is_rest_day (today self) = true ->
        is_yom_tov (tomorrow self) = true ->
        r = Some (havdalah_value self sunset three_stars)).
Proof.
  intros Hz.
  destruct (zmanim_entries M self times Hz) as (sunset & three_stars & Hs & Ht).
  destruct (transitions_normal_form self times sunset three_stars Hz Hs Ht)
    as (_ & Hc & _).
  rewrite Hc. eexists _, sunset, three_stars.
  split; [reflexivity|]. split; [assumption|]. split; [assumption|].
  split; [|split].
  - destruct (is_rest_day (tomorrow self)); split; congruence.
  - now intros -> ->.
  - intros HT Hyt.
    assert (HR : is_rest_day (tomorrow self) = true).
    { unfold is_rest_day. rewrite Hyt. apply orb_true_r. }
    now rewrite HT, Hyt, HR.
Qed.

(** X3.  A day never has both a havdalah and a candle lighting: when
    havdalah is defined, candle_lighting returns None (without computing
    any solar time). *)
Theorem havdalah_excludes_candle_lighting self h :
  havdalah M self = Ok (Some h) ->
  candle_lighting M self = Ok None.
Proof.
  intros Hh. apply havdalah_defined_rest_day in Hh. destruct Hh as [_ HR].
  unfold is_rest_day, tomorrow in HR. apply orb_false_iff in HR.
  destruct HR as [Hs Hy]. unfold candle_lighting.
  now rewrite Hs, Hy, andb_false_r.
Qed.

(** X4.  Once the table of zmanim is computed, at most one of
    issur_melacha_in_effect, erev_shabbat_chag and motzei_shabbat_chag is
    true. *)
Theorem day_states_exclusive self times :
  zmanim M self = Ok times ->
  exists issur erev motzei : bool,
    issur_melacha_in_effect M self = Ok issur
    /\ erev_shabbat_chag M self = Ok erev
    /\ motzei_shabbat_chag M self = Ok motzei
    /\ issur && erev = false
    /\ issur && motzei = false
    /\ erev && motzei = false.
Proof.
  intros Hz.
  destruct (zmanim_entries M self times Hz) as (sunset & three_stars & Hs & Ht).
  destruct (transitions_normal_form self times sunset three_stars Hz Hs Ht)
    as (_ & _ & Hi & He & Hm).
  rewrite Hi, He, Hm. eexists _, _, _.
  split; [reflexivity|]. split; [reflexivity|]. split; [reflexivity|].
  destruct (is_rest_day (today self)), (is_rest_day (tomorrow self)),
    (is_yom_tov (tomorrow self)); cbn;
    repeat match goal with
      | |- context [?x <? ?y] => destruct (Z.ltb_spec x y)
      | |- context [?x <=? ?y] => destruct (Z.leb_spec x y)
      end; cbn; repeat split; try reflexivity; lia.
Qed.

(** X5.  On the eve of a rest day (today is not one, tomorrow is), the
    candle lighting splits the day: erev_shabbat_chag holds strictly
    before it and issur_melacha_in_effect from it on, so exactly one of the
    two is true. *)
Theorem eve_split_at_candle_lighting self times :
  zmanim M self = Ok times ->
  is_rest_day (today self) = false ->
  is_rest_day (tomorrow self) = true ->
  exists c : Z,
    candle_lighting M self = Ok (Some c)
    /\ erev_shabbat_chag M self = Ok (time self <? c)
    /\ issur_melacha_in_effect M self = Ok (negb (time self <? c)).
Proof.
  intros Hz HT HR.
  destruct (zmanim_entries M self times Hz) as (sunset & three_stars & Hs & Ht).
  destruct (transitions_normal_form self times sunset three_stars Hz Hs Ht)
    as (_ & Hc & Hi & He & _).
  rewrite Hc, Hi, He, HT, HR. cbn.
  eexists. split; [reflexivity|]. split; [reflexivity|].
  now rewrite Z.leb_antisym.
Qed.

(** X6.  On the last day of a rest (today is a rest day, tomorrow is not),
    issur_melacha_in_effect holds strictly before the havdalah and
    motzei_shabbat_chag strictly after it; at the havdalah instant itself
    both are false. *)
Theorem exit_day_split_at_havdalah self times :
  zmanim M self = Ok times ->
  is_rest_day (today self) = true ->
  is_rest_day (tomorrow self) = false ->
  exists h : Z,
    havdalah M self = Ok (Some h)
    /\ issur_melacha_in_effect M self = Ok (time self <? h)
    /\ motzei_shabbat_chag M self = Ok (h <? time self)
    /\ (time self = h ->
        issur_melacha_in_effect M self = Ok false
        /\ motzei_shabbat_chag M self = Ok false).
Proof.
  intros Hz HT HR.
  destruct (zmanim_entries M self times Hz) as (sunset & three_stars & Hs & Ht).
  destruct (transitions_normal_form self times sunset three_stars Hz Hs Ht)
    as (Hh & _ & Hi & _ & Hm).
  rewrite Hh, Hi, Hm, HT, HR. cbn.
  eexists. split; [reflexivity|].
  rewrite orb_false_r. split; [reflexivity|]. split; [reflexivity|].
  intros ->. now rewrite Z.ltb_irrefl.
Qed.

(** X7.  On an ordinary day (neither today nor tomorrow is a rest day) no
    property computes a solar time: candle_lighting and havdalah are None
    and the three booleans are false, also on an instance whose table of
    zmanim would raise. *)
Theorem ordinary_day_needs_no_zmanim self :
  is_rest_day (today self) = false ->
  is_rest_day (tomorrow self) = false ->
  candle_lighting M self = Ok None
  /\ havdalah M self = Ok None
  /\ issur_melacha_in_effect M self = Ok false
  /\ erev_shabbat_chag M self = Ok false
  /\ motzei_shabbat_chag M self = Ok false.
Proof.
  unfold is_rest_day, today, tomorrow. intros HT HR.
  apply orb_false_iff in HT, HR. destruct HT as [Hts Hty], HR as [Hrs Hry].
  unfold issur_melacha_in_effect, erev_shabbat_chag, motzei_shabbat_chag,
    havdalah, candle_lighting.
  rewrite Hts, Hty, Hrs, Hry. cbn. repeat split; reflexivity.
Qed.

(** X8.  Inside a rest of several days (today and tomorrow are both rest
    days) issur_melacha_in_effect is true, havdalah is None and
    motzei_shabbat_chag is false at every instant, also on an instance
    whose table of zmanim would raise. *)
Theorem inside_rest_needs_no_zmanim self :
  is_rest_day (today self) = true ->
  is_rest_day (tomorrow self) = true ->
  issur_melacha_in_effect M self = Ok true
  /\ havdalah M self = Ok None
  /\ motzei_shabbat_chag M self = Ok false.
Proof.
  unfold is_rest_day, today, tomorrow. intros HT HR.
  unfold issur_melacha_in_effect, motzei_shabbat_chag, havdalah.
  rewrite HT, HR. cbn. repeat split; reflexivity.
Qed.

(** X9.  On a day where exactly one of today and tomorrow is a rest day,
    an exception raised while computing the table of zmanim comes out of
    issur_melacha_in_effect unchanged. *)
Theorem issur_melacha_propagates_errors self e :
  zmanim M self = Raise e ->
  is_rest_day (today self) <> is_rest_day (tomorrow self) ->
  issur_melacha_in_effect M self = Raise e.
Proof.
  intros Hz Hne.
  assert (Hh : _havdalah_datetime M self = Raise e).
  { unfold _havdalah_datetime. rewrite Hz.
    destruct (havdalah_offset self =? 0); reflexivity. }
  unfold is_rest_day, today, tomorrow in Hne.
  unfold issur_melacha_in_effect, havdalah, candle_lighting.
  rewrite Hh, Hz.
  destruct (is_shabbat (HDate_new (date self) _)),
           (is_yom_tov (HDate_new (date self) _)),
           (is_shabbat (HDate_new (date self + 1) _)),
           (is_yom_tov (HDate_new (date self + 1) _)); cbn in *;
    first [reflexivity | congruence].
Qed.

End day_states.

(** ** Construction *)

Section construction.
Variable M : Module.


End construction.

(** ** The day of the year *)

Lemma date_year_start (d : Z) :
  1 <= d -> 0 <= d - mkdate (date_year d) 1 1 <= 365.
Proof.
  intros Hd. unfold mkdate, date_year, days_before_year, days_before_month.
  change (days_before_month_aux _ (Z.to_nat (1 - 1))) with 0.
  cbv zeta.
  destruct (((d - 1) mod 146097 mod 36524 mod 1461 / 365 =? 4)
            || ((d - 1) mod 146097 / 36524 =? 4))%bool eqn:E.
  - apply orb_true_iff in E. rewrite !Z.eqb_eq in E.
    Z.div_mod_to_equations. lia.
  - apply orb_false_iff in E. rewrite !Z.eqb_neq in E.
    Z.div_mod_to_equations. lia.
Qed.

(** The year of the day that is [offset] days after January 1 of [year]. *)
Lemma date_year_offset (year offset : Z) :
  1 <= year ->
  0 <= offset < (if is_leap year then 366 else 365) ->
  date_year (days_before_year year + offset + 1) = year.
Proof.
  intros Hy Ho. unfold is_leap in Ho.
  unfold date_year, days_before_year. cbv zeta.
  replace (year - 1 + 1) with year by lia.
  set (n := (year - 1) * 365 + (year - 1) / 4 - (year - 1) / 100
            + (year - 1) / 400 + offset + 1 - 1).
  destruct (year mod 4 =? 0) eqn:E4; destruct (year mod 100 =? 0) eqn:E100;
    destruct (year mod 400 =? 0) eqn:E400; cbn in Ho;
    rewrite ?Z.eqb_eq, ?Z.eqb_neq in *;
    destruct ((n mod 146097 mod 36524 mod 1461 / 365 =? 4)
              || (n mod 146097 / 36524 =? 4))%bool eqn:E;
    first [apply orb_true_iff in E | apply orb_false_iff in E];
    rewrite ?Z.eqb_eq, ?Z.eqb_neq in E; subst n;
    Z.div_mod_to_equations; lia.
Qed.

Lemma day_in_year (year month day : Z) :
  1 <= month <= 12 -> 1 <= day <= days_in_month year month ->
  0 <= days_before_month year month + day - 1
    < (if is_leap year then 366 else 365).
Proof.
  intros Hm Hd.
  assert (Hcases : month = 1 \/ month = 2 \/ month = 3 \/ month = 4
                   \/ month = 5 \/ month = 6 \/ month = 7 \/ month = 8
                   \/ month = 9 \/ month = 10 \/ month = 11 \/ month = 12)
    by lia.
  unfold days_before_month.
  repeat (destruct Hcases as [->|Hcases]); try subst month;
    match goal with
    | |- context [Z.to_nat ?e] =>
        let v := eval vm_compute in (Z.to_nat e) in
        change (Z.to_nat e) with v
    end;
    cbv [days_before_month_aux days_in_month Z.of_nat Pos.of_succ_nat
         Pos.succ Z.eqb Pos.eqb orb] in Hd |- *;
    destruct (is_leap year); lia.
Qed.

(** X12.  [gday_of_year] is between 0 and 365, for every date from
    0001-01-01 on. *)
Theorem gday_of_year_bounds (self : Zmanim) :
  1 <= date self -> 0 <= gday_of_year self <= 365.
Proof. intros Hd. unfold gday_of_year. now apply date_year_start. Qed.

(** X13.  [gday_of_year] counts from zero: on [dt.date(year, month, day)]
    it is the number of days of the year before the month, plus the day,
    minus one; 0 on January 1 and 364 or 365 on December 31. *)
Theorem gday_of_year_of_date (self : Zmanim) (year month day : Z) :
  1 <= year -> 1 <= month <= 12 -> 1 <= day <= days_in_month year month ->
  date self = mkdate year month day ->
  gday_of_year self = days_before_month year month + day - 1.
Proof.
  intros Hy Hm Hd Hdate. unfold gday_of_year. rewrite Hdate.
  pose proof (day_in_year year month day Hm Hd) as Hoff.
  replace (mkdate year month day)
    with (days_before_year year
          + (days_before_month year month + day - 1) + 1)
    by (unfold mkdate; lia).
  rewrite (date_year_offset year _ Hy Hoff).
  unfold mkdate.
  change (days_before_month year 1) with 0. lia.
Qed.

(** ** Minutes from midnight *)

(** X15.  [_datetime_to_minutes_offest] rounds the whole seconds elapsed
    since midnight (UTC) of the instance's date to the nearest minute,
    halves up, also for a datetime on another date: it is
    floor((seconds + 30) / 60). *)
Theorem _datetime_to_minutes_offest_rounds (self : Zmanim) (t : Z) :
  _datetime_to_minutes_offest self t
  = ((t - utc_midnight (date self)) / 1000000 + 30) / 60.
Proof.
  unfold _datetime_to_minutes_offest, datetime_hour, datetime_minute,
    datetime_second, datetime_date, utc_midnight, us_per_day, us_per_hour,
    us_per_minute.
  destruct (30 <=? t mod 60000000 / 1000000) eqn:E;
    [apply Z.leb_le in E|apply Z.leb_gt in E];
    Z.div_mod_to_equations; lia.
Qed.

(** ** The solver, continued *)

Section solver_more.
Context `{Math}.
Implicit Types (self : Zmanim) (deg : Q).

Local Open Scope Q_scope.

(** X14.  The yearly angle of the solver is negative exactly on January 1:
    [gday_of_year] counts from zero and the solver subtracts one more. *)
Theorem sun_gama_negative_iff_january_first self :
  (1 <= date self)%Z ->
  sun_gama self < 0 <-> date self = mkdate (date_year (date self)) 1 1.
Proof.
  intros Hd. pose proof (date_year_start (date self) Hd) as [Hlo _].
  unfold sun_gama. unfold gday_of_year in *.
  set (g := (date self - mkdate (date_year (date self)) 1 1)%Z) in *.
  assert (Hg : 2 * math_pi * ((inject_Z g - 1) / 365)
               == (2 * math_pi / 365) * (inject_Z g - 1)) by field.
  rewrite Hg.
  assert (Hpos : 0 < 2 * math_pi / 365) by reflexivity.
  split.
  - intros Hneg.
    assert (Hlt : inject_Z g < 1) by nra.
    change 1 with (inject_Z 1) in Hlt. rewrite <- Zlt_Qlt in Hlt. lia.
  - intros Heq. assert (g = 0%Z) as -> by lia.
    reflexivity.
Qed.

(** X18.  With an inverse cosine that is never negative, the rising
    minute the solver returns is never after the setting minute. *)
Theorem rising_not_after_setting self deg (rising setting : Z) :
  (forall x, 0 <= acos x) ->
  _get_utc_sun_time_deg self deg = Ok (rising, setting) ->
  (rising <= setting)%Z.
Proof.
  intros Hacos Hsolve. rewrite _get_utc_sun_time_deg_eq in Hsolve.
  destruct (acos_argument self deg) as [x|e]; cbn in Hsolve; [|discriminate].
  destruct (Qle_bool (-1) x && Qle_bool x 1); injection Hsolve as <- <-;
    [|lia].
  apply py_int_le.
  assert (Hha : 0 <= hour_angle_minutes x).
  { unfold hour_angle_minutes.
    assert (Heq : 720 * acos x / math_pi == (720 / math_pi) * acos x)
      by (field; discriminate).
    rewrite Heq. apply Qmult_le_0_compat; [discriminate|apply Hacos]. }
  lra.
Qed.

(** X19.  The ValueError of [math.acos] never leaves the solver: either
    it returns a pair, or it raises ZeroDivisionError, and that only when
    the product of the cosines of the latitude and of the declination is
    zero. *)
Theorem solver_raises_only_ZeroDivisionError self deg :
  (exists rising setting,
      _get_utc_sun_time_deg self deg = Ok (rising, setting))
  \/ (_get_utc_sun_time_deg self deg = Raise ZeroDivisionError
      /\ cos (math_pi * latitude (location self) / 180)
         * cos (sun_decl self) == 0).
Proof.
  rewrite _get_utc_sun_time_deg_eq. unfold acos_argument, truediv.
  destruct (Qeq_bool _ 0) eqn:E; cbn.
  - right. split; [reflexivity|]. now apply Qeq_bool_iff.
  - left. destruct (Qle_bool (-1) _ && Qle_bool _ 1); eauto.
Qed.

End solver_more.

(** ** The derived zmanim, continued *)

Local Open Scope Z_scope.

Lemma zmanim_of_markers_derived
    (sunrise sunset first_light talit first_stars three_stars : Z) :
  let d := zmanim_of_markers
             (sunrise, sunset, first_light, talit, first_stars,
              three_stars) in
  let sun_hour : Z := (sunset - sunrise) / 12 in
  let midday : Z := (sunset + sunrise) / 2 in
  let mga_sunhour : Q := ((midday - first_light)%Z / 6)%Q in
  d !! "plag_mincha" = Some (Float (sunset - 1.25 * sun_hour))
  /\ d !! "stars_out" = Some (Float (sunset + 18.0 * sun_hour / 60.0))
  /\ d !! "small_mincha" = Some (Float (sunrise + 9.5 * sun_hour))
  /\ d !! "big_mincha" = Some (Float (sunrise + 6.5 * sun_hour))
  /\ d !! "big_mincha_30" = Some (Int (midday + 30))
  /\ d !! "mga_end_shma" = Some (Float (first_light + mga_sunhour * 3.0))
  /\ d !! "gra_end_shma" = Some (Float (sunrise + sun_hour * 3.0))
  /\ d !! "mga_end_tfila" = Some (Float (first_light + mga_sunhour * 4.0))
  /\ d !! "gra_end_tfila" = Some (Float (sunrise + sun_hour * 4.0))
  /\ d !! "rabbeinu_tam" = Some (Float (sunset + sun_hour * 1.2))
  /\ d !! "midnight" = Some (Float (midday + 12 * 60.0)).
Proof. repeat split; reflexivity. Qed.

Lemma round_half_even_Qeq (x : Q) (n : Z) :
  (x == inject_Z n)%Q -> round_half_even x = n.
Proof.
  intros Hx. unfold round_half_even.
  assert (Hf : Qfloor x = n) by (rewrite Hx; apply Qfloor_Z).
  rewrite Hf.
  replace ((x - inject_Z n ?= 1 # 2)%Q) with Lt; [reflexivity|].
  symmetry. rewrite <- Qlt_alt. rewrite Hx.
  unfold Qlt, Qminus, Qplus, Qopp, inject_Z. simpl. lia.
Qed.

(** A float number of minutes that is a whole number of seconds. *)
Lemma timedelta_Float_seconds (x : Q) (s : Z) :
  (x * 60 == inject_Z s)%Q ->
  timedelta_minutes (Float x) = s * 1000000.
Proof.
  intros Hx. unfold timedelta_minutes. apply round_half_even_Qeq.
  rewrite inject_Z_mult. rewrite <- Hx.
  unfold us_per_minute.
  change (inject_Z 60000000) with (60 * 1000000)%Q.
  change (inject_Z 1000000) with 1000000%Q. ring.
Qed.

Ltac float_seconds s :=
  exists s; apply timedelta_Float_seconds;
  unfold Z.sub;
  rewrite ?inject_Z_plus, ?inject_Z_opp, ?inject_Z_mult,
    ?inject_Z_plus, ?inject_Z_opp;
  repeat match goal with
    | |- context [inject_Z (Zpos ?p)] =>
        change (inject_Z (Zpos p)) with (Qmake (Zpos p) 1)
    end;
  field.

Lemma zmanim_of_markers_whole_seconds
    (markers : Z * Z * Z * Z * Z * Z) (key : string) (v : number) :
  zmanim_of_markers markers !! key = Some v ->
  exists s : Z, timedelta_minutes v = s * 1000000.
Proof.
  destruct markers as [[[[[sunrise sunset] first_light] talit] first_stars]
                         three_stars].
  unfold zmanim_of_markers. intros Hv.
  apply elem_of_list_to_map_2 in Hv.
  set (h := (sunset - sunrise) / 12) in *.
  set (mid := (sunset + sunrise) / 2) in *.
  repeat (apply elem_of_cons in Hv; destruct Hv as [[= -> ->]|Hv]);
    try (apply elem_of_nil in Hv; contradiction);
    try match goal with
      | |- exists s, timedelta_minutes (Int ?n) = _ =>
          exists (n * 60); unfold timedelta_minutes, us_per_minute; lia
      end.
  - float_seconds (60 * sunset - 75 * h).
  - float_seconds (60 * sunset + 18 * h).
  - float_seconds (60 * sunrise + 570 * h).
  - float_seconds (60 * sunrise + 390 * h).
  - float_seconds (60 * first_light + 30 * (mid - first_light)).
  - float_seconds (60 * sunrise + 180 * h).
  - float_seconds (60 * first_light + 40 * (mid - first_light)).
  - float_seconds (60 * sunrise + 240 * h).
  - float_seconds (60 * sunset + 72 * h).
  - float_seconds (60 * mid + 43200).
Qed.

Section derivation_more.
Context `{Math}.
Variable M : Module.
Implicit Types (self : Zmanim).

(** X16.  In every result of [get_utc_sun_time_full] whose sunrise is not
    after its sunset, the zmanim come in their order: sunrise, end of
    shma (GRA), end of tfila (GRA), big mincha, small mincha, plag mincha,
    sunset, stars out, Rabbeinu Tam; and midday is between sunrise and
    sunset. *)
Theorem zmanim_order self (d : gmap string number) :
  get_utc_sun_time_full M self = Ok d ->
  exists (sunrise sunset midday : Z) (gs gt bm sm pm so rt : Q),
    d !! "sunrise" = Some (Int sunrise)
    /\ d !! "sunset" = Some (Int sunset)
    /\ d !! "midday" = Some (Int midday)
    /\ d !! "gra_end_shma" = Some (Float gs)
    /\ d !! "gra_end_tfila" = Some (Float gt)
    /\ d !! "big_mincha" = Some (Float bm)
    /\ d !! "small_mincha" = Some (Float sm)
    /\ d !! "plag_mincha" = Some (Float pm)
    /\ d !! "stars_out" = Some (Float so)
    /\ d !! "rabbeinu_tam" = Some (Float rt)
    /\ (sunrise <= sunset ->
        sunrise <= midday <= sunset
        /\ (sunrise <= gs /\ gs <= gt /\ gt <= bm /\ bm <= sm /\ sm <= pm
            /\ pm <= sunset /\ sunset <= so /\ so <= rt)%Q).
Proof.
  intros Hd. apply get_utc_sun_time_full_Ok in Hd.
  destruct Hd as [[[[[[sunrise sunset] first_light] talit] first_stars]
                     three_stars] ->].
  destruct (zmanim_of_markers_solved sunrise sunset first_light talit
              first_stars three_stars) as (Hsr & Hss & _).
  destruct (zmanim_of_markers_sun_hour sunrise sunset first_light talit
              first_stars three_stars) as (_ & Hmid).
  destruct (zmanim_of_markers_derived sunrise sunset first_light talit
              first_stars three_stars)
    as (Hpm & Hso & Hsm & Hbm & _ & _ & Hgs & _ & Hgt & Hrt & _).
  eexists sunrise, sunset, _, _, _, _, _, _, _, _.
  repeat (split; [eassumption|]).
  intros Hle.
  set (h := (sunset - sunrise) / 12).
  assert (Hh0 : 0 <= h) by (apply Z.div_pos; lia).
  assert (Hh12 : 12 * h <= sunset - sunrise) by (apply Z.mul_div_le; lia).
  split.
  - pose proof (Z.mul_div_le (sunset + sunrise) 2).
    pose proof (Z.mod_pos_bound (sunset + sunrise) 2).
    pose proof (Z.div_mod (sunset + sunrise) 2). lia.
  - assert (Hq0 : (0 <= inject_Z h)%Q) by (rewrite Zle_Qle in Hh0; exact Hh0).
    assert (Hq12 : (12 * inject_Z h <= inject_Z sunset - inject_Z sunrise)%Q).
    { rewrite Zle_Qle in Hh12. rewrite inject_Z_mult in Hh12.
      unfold Z.sub in Hh12. rewrite inject_Z_plus, inject_Z_opp in Hh12.
      change (inject_Z 12) with 12%Q in Hh12. lra. }
    assert (Hdiv : (18.0 * inject_Z h / 60.0 == 0.3 * inject_Z h)%Q)
      by field.
    repeat split; rewrite ?Hdiv; lra.
Qed.

(** X17.  The table [zmanim] returns has every zman key, and each of its
    datetimes is a whole number of seconds after midnight (UTC) of the
    instance's date: no zman has a fraction of a second. *)
Theorem zmanim_whole_seconds self (times : gmap string Z) :
  zmanim M self = Ok times ->
  dom times = zmanim_keys
  /\ forall key t, times !! key = Some t ->
       exists s : Z, t = utc_midnight (date self) + s * 1000000.
Proof.
  unfold zmanim, utc_zmanim. intros Hz.
  apply bind_Ok in Hz. destruct Hz as [utc [Hutc Hz]].
  apply bind_Ok in Hutc. destruct Hutc as [d [Hd Hutc]].
  injection Hz as <-. injection Hutc as <-.
  apply get_utc_sun_time_full_Ok in Hd. destruct Hd as [markers ->].
  split.
  - rewrite !dom_fmap_L. apply zmanim_of_markers_dom.
  - intros key t. rewrite !lookup_fmap.
    destruct (zmanim_of_markers markers !! key) as [v|] eqn:Hv;
      [|discriminate].
    cbn. intros [= <-].
    destruct (zmanim_of_markers_whole_seconds markers key v Hv) as [s ->].
    exists s. reflexivity.
Qed.

End derivation_more.

(** ** utils/translations.py *)

Section translations.
Import Translations.

Lemma key_char_lower (c : Ascii.ascii) :
  key_char c = true -> lower_char c = c.
Proof.
  destruct c as [[] [] [] [] [] [] [] []]; vm_compute; congruence.
Qed.

Lemma key_char_not_space (c : Ascii.ascii) :
  key_char c = true -> Ascii.eqb c space = false.
Proof.
  destruct c as [[] [] [] [] [] [] [] []]; vm_compute; congruence.
Qed.

Lemma strip_non_key_all (s : string) :
  all_chars key_char (strip_non_key s) = true.
Proof.
  induction s as [|c s IH]; cbn; [reflexivity|].
  destruct (key_char c) eqn:E; cbn; [now rewrite E|assumption].
Qed.

Lemma key_of_name_fixed (s : string) :
  all_chars key_char s = true -> key_of_name s = s.
Proof.
  unfold key_of_name.
  induction s as [|c s IH]; cbn; [reflexivity|].
  intros Hall. apply andb_true_iff in Hall. destruct Hall as [Hc Hs].
  rewrite (key_char_lower c Hc), (key_char_not_space c Hc), Hc.
  now rewrite IH.
Qed.

(** X20.  The key [main] makes of an english name holds only the letters
    a to z and the underscore. *)
Theorem key_of_name_alphabet (english : string) :
  all_chars key_char (key_of_name english) = true.
Proof. apply strip_non_key_all. Qed.

(** X21.  Making a key is idempotent: the key of a key is the key
    itself. *)
Theorem key_of_name_idempotent (english : string) :
  key_of_name (key_of_name english) = key_of_name english.
Proof. apply key_of_name_fixed, strip_non_key_all. Qed.

(** X22.  The key of two texts put together is their keys put together:
    names that differ only in characters the key drops (digits,
    punctuation) or in the case of letters get the same key. *)
Theorem key_of_name_app (a b : string) :
  key_of_name (a ++ b) = (key_of_name a ++ key_of_name b)%string.
Proof.
  unfold key_of_name.
  induction a as [|c a IH]; [reflexivity|].
  change (String c a +:+ b) with (String c (a +:+ b)).
  cbn [str_lower replace_spaces strip_non_key]. rewrite IH.
  destruct (key_char _); reflexivity.
Qed.

(** [item_key] raises AttributeError when the item has no english
    field and otherwise returns the key of its english name, the long
    form when the field is a DESC. *)
Lemma item_key_cases (item : gmap string lang_field) :
  match item !! "english" with
  | None => item_key item = Raise (AttributeError "english")
  | Some (Str s) => item_key item = Ok (key_of_name s)
  | Some (DESC long _) => item_key item = Ok (key_of_name long)
  end.
Proof.
  unfold item_key, get_lang_value, getattr.
  destruct (item !! "english") as [[s|long short]|]; reflexivity.
Qed.

End translations.

(** ** The reference inverse cosine is never negative *)

Lemma ref_bisect_bounds (fuel : nat) (y lo hi : Z) :
  lo <= hi ->
  lo <= RefMath.bisect fuel y lo hi <= hi.
Proof.
  revert lo hi. induction fuel as [|fuel IH]; intros lo hi Hle;
    cbn [RefMath.bisect].
  - Z.div_mod_to_equations. lia.
  - assert (Hmid : lo <= (lo + hi) / 2 <= hi)
      by (Z.div_mod_to_equations; lia).
    destruct (y <? RefMath.fx_cos ((lo + hi) / 2)).
    + specialize (IH ((lo + hi) / 2) hi). lia.
    + specialize (IH lo ((lo + hi) / 2)). lia.
Qed.

Lemma ref_acos_nonneg (x : Q) : (0 <= RefMath.acos x)%Q.
Proof.
  unfold RefMath.acos, RefMath.fx_acos, RefMath.of_fx.
  pose proof (ref_bisect_bounds 50 (RefMath.to_fx x) 0 RefMath.fx_pi) as Hb.
  unfold Qle. cbn [Qnum Qden]. 
  assert (0 <= RefMath.fx_pi) by (vm_compute; discriminate).
  lia.
Qed.

(** ** The scenarios *)

Section scenario_results.
Import Fixtures Scenarios.
#[local] Existing Instance israel_5779.

Lemma markers_friday_morning :
  low_accuracy_markers friday_morning
  = Ok (242, 886, 168, 192, 911, 923).
Proof. vm_compute. reflexivity. Qed.

Lemma zmanim_friday_morning :
  zmanim no_astral friday_morning
  = Ok (table_of friday_morning (242, 886, 168, 192, 911, 923)).
Proof.
  apply zmanim_low_accuracy; [reflexivity|exact markers_friday_morning].
Qed.

Lemma friday_morning_is_an_eve :
  is_rest_day (today friday_morning) = false
  /\ is_rest_day (tomorrow friday_morning) = true.
Proof. split; vm_compute; reflexivity. Qed.

Lemma shabbat_morning_is_an_exit_day :
  is_rest_day (today shabbat_morning) = true
  /\ is_rest_day (tomorrow shabbat_morning) = false.
Proof. split; vm_compute; reflexivity. Qed.

(** Friday morning is erev Shabbat. *)
Lemma erev_shabbat_chag_iff_witness :
  exists b : bool,
    erev_shabbat_chag no_astral friday_morning = Ok b
    /\ (b = true <->
          is_rest_day (today friday_morning) = false
          /\ is_rest_day (tomorrow friday_morning) = true
          /\ exists c, candle_lighting no_astral friday_morning = Ok (Some c)
                       /\ time friday_morning < c).
Proof.
  exact (erev_shabbat_chag_iff no_astral friday_morning _
           zmanim_friday_morning).
Defined.

Lemma candle_lighting_defined_iff_witness :
  exists r : option Z,
    candle_lighting no_astral friday_morning = Ok r /\ r <> None.
Proof.
  destruct (candle_lighting_defined_iff no_astral friday_morning _
              zmanim_friday_morning)
    as (r & sunset & three_stars & Hr & _ & _ & Hdef & _).
  exists r. split; [exact Hr|].
  apply Hdef. exact (proj2 friday_morning_is_an_eve).
Defined.

Lemma havdalah_excludes_candle_lighting_witness :
  candle_lighting no_astral shabbat_morning = Ok None.
Proof.
  exact (havdalah_excludes_candle_lighting no_astral shabbat_morning _
           havdalah_shabbat_morning).
Defined.

Lemma day_states_exclusive_witness :
  exists issur erev motzei : bool,
    issur_melacha_in_effect no_astral shabbat_morning = Ok issur
    /\ erev_shabbat_chag no_astral shabbat_morning = Ok erev
    /\ motzei_shabbat_chag no_astral shabbat_morning = Ok motzei
    /\ issur && erev = false
    /\ issur && motzei = false
    /\ erev && motzei = false.
Proof.
  exact (day_states_exclusive no_astral shabbat_morning _
           zmanim_shabbat_morning).
Defined.

(** Friday morning (test_issur_melacha_friday_morning). *)
Lemma eve_split_at_candle_lighting_witness :
  exists c : Z,
    candle_lighting no_astral friday_morning = Ok (Some c)
    /\ erev_shabbat_chag no_astral friday_morning
       = Ok (time friday_morning <? c)
    /\ issur_melacha_in_effect no_astral friday_morning
       = Ok (negb (time friday_morning <? c)).
Proof.
  exact (eve_split_at_candle_lighting no_astral friday_morning _
           zmanim_friday_morning (proj1 friday_morning_is_an_eve)
           (proj2 friday_morning_is_an_eve)).
Defined.

Lemma exit_day_split_at_havdalah_witness :
  exists h : Z,
    havdalah no_astral shabbat_morning = Ok (Some h)
    /\ issur_melacha_in_effect no_astral shabbat_morning
       = Ok (time shabbat_morning <? h)
    /\ motzei_shabbat_chag no_astral shabbat_morning
       = Ok (h <? time shabbat_morning)
    /\ (time shabbat_morning = h ->
        issur_melacha_in_effect no_astral shabbat_morning = Ok false
        /\ motzei_shabbat_chag no_astral shabbat_morning = Ok false).
Proof.
  exact (exit_day_split_at_havdalah no_astral shabbat_morning _
           zmanim_shabbat_morning (proj1 shabbat_morning_is_an_exit_day)
           (proj2 shabbat_morning_is_an_exit_day)).
Defined.

(** A Monday (test_issur_melacha_weekday). *)
Lemma ordinary_day_needs_no_zmanim_witness :
  candle_lighting no_astral weekday = Ok None
  /\ havdalah no_astral weekday = Ok None
  /\ issur_melacha_in_effect no_astral weekday = Ok false
  /\ erev_shabbat_chag no_astral weekday = Ok false
  /\ motzei_shabbat_chag no_astral weekday = Ok false.
Proof.
  apply (ordinary_day_needs_no_zmanim no_astral weekday);
    vm_compute; reflexivity.
Defined.

(** The seventh day of Pesach on a Friday, followed by Shabbat. *)
Lemma inside_rest_needs_no_zmanim_witness :
  issur_melacha_in_effect no_astral friday_yom_tov = Ok true
  /\ havdalah no_astral friday_yom_tov = Ok None
  /\ motzei_shabbat_chag no_astral friday_yom_tov = Ok false.
Proof.
  apply (inside_rest_needs_no_zmanim no_astral friday_yom_tov);
    vm_compute; reflexivity.
Defined.

(** On the relocated instance the table of zmanim raises AttributeError,
    and so does issur_melacha_in_effect on that Friday. *)
Lemma issur_melacha_propagates_errors_witness :
  issur_melacha_in_effect with_astral relocated
  = Raise (AttributeError "astral_sun").
Proof.
  apply (issur_melacha_propagates_errors with_astral relocated).
  - vm_compute. reflexivity.
  - vm_compute. discriminate.
Defined.

(** The relocated scenario, call by call: as built at latitude 60 the
    instance answers from the low-accuracy solver; after the assignment
    of Petah Tikva to its [location] the same call raises. *)
Lemma markers_built_at_latitude_60 :
  low_accuracy_markers built_at_latitude_60
  = Ok (358, 849, 227, 269, 896, 917).
Proof. vm_compute. reflexivity. Qed.

Lemma relocated_is_moved :
  relocated
  = set_location built_at_latitude_60 (petah_tikva jerusalem_winter).
Proof. reflexivity. Qed.

Lemma branch_selected_at_each_call_witness :
  get_utc_sun_time_full with_astral built_at_latitude_60
  = Ok (zmanim_of_markers (358, 849, 227, 269, 896, 917))
  /\ get_utc_sun_time_full with_astral relocated
     = Raise (AttributeError "astral_sun").
Proof.
  destruct (branch_selected_at_each_call with_astral noon_2019
              (Some (a_datetime (naive 2018 11 9 9 45))) latitude_60
              (petah_tikva jerusalem_winter) "hebrew" 18 0
              built_at_latitude_60 eq_refl)
    as (_ & Hbuilt & _ & Hmoved).
  split.
  - rewrite Hbuilt.
    replace (_USE_ASTRAL with_astral
             && Qle_bool (Qabs (latitude latitude_60)) MAX_LATITUDE_ASTRAL)
      with false by reflexivity.
    rewrite markers_built_at_latitude_60. reflexivity.
  - rewrite relocated_is_moved. apply Hmoved; reflexivity.
Defined.

(** The opposite move: as built at Petah Tikva the instance answers from
    [astral] (the README example); after the assignment of latitude 60
    the same call answers from the low-accuracy solver. *)
Lemma markers_moved_north :
  low_accuracy_markers moved_north = Ok (177, 1061, 9, 78, 1108, 1133).
Proof. vm_compute. reflexivity. Qed.

Lemma moved_north_takes_the_low_accuracy_branch :
  get_utc_sun_time_full with_astral petah_tikva_2016_astral
  = Ok (zmanim_of_markers (188, 972, 112, 138, 998, 1010))
  /\ get_utc_sun_time_full with_astral moved_north
     = Ok (zmanim_of_markers (177, 1061, 9, 78, 1108, 1133)).
Proof.
  split; [exact full_readme|].
  unfold get_utc_sun_time_full.
  replace (negb (_USE_ASTRAL with_astral)
           || Qgt_bool (Qabs (latitude (location moved_north)))
                MAX_LATITUDE_ASTRAL)
    with true by reflexivity.
  now rewrite markers_moved_north.
Qed.


Lemma gday_of_year_bounds_witness :
  0 <= gday_of_year petah_tikva_2016 <= 365.
Proof.
  apply (gday_of_year_bounds petah_tikva_2016). vm_compute. discriminate.
Defined.

(** 2016-04-18 is day 108 of a leap year, counting from zero. *)
Lemma gday_of_year_of_date_witness :
  gday_of_year petah_tikva_2016 = days_before_month 2016 4 + 18 - 1.
Proof.
  apply (gday_of_year_of_date petah_tikva_2016 2016 4 18).
  - lia.
  - lia.
  - vm_compute. split; discriminate.
  - reflexivity.
Defined.

Lemma sun_gama_negative_iff_january_first_witness :
  (sun_gama petah_tikva_2016 < 0)%Q
  <-> date petah_tikva_2016 = mkdate (date_year (date petah_tikva_2016)) 1 1.
Proof.
  apply (sun_gama_negative_iff_january_first petah_tikva_2016).
  vm_compute. discriminate.
Defined.

Lemma zmanim_order_witness :
  exists (sunrise sunset midday : Z) (gs gt bm sm pm so rt : Q),
    zmanim_of_markers (189, 970, 113, 139, 995, 1008) !! "sunrise"
    = Some (Int sunrise)
    /\ zmanim_of_markers (189, 970, 113, 139, 995, 1008) !! "sunset"
       = Some (Int sunset)
    /\ zmanim_of_markers (189, 970, 113, 139, 995, 1008) !! "midday"
       = Some (Int midday)
    /\ zmanim_of_markers (189, 970, 113, 139, 995, 1008) !! "gra_end_shma"
       = Some (Float gs)
    /\ zmanim_of_markers (189, 970, 113, 139, 995, 1008) !! "gra_end_tfila"
       = Some (Float gt)
    /\ zmanim_of_markers (189, 970, 113, 139, 995, 1008) !! "big_mincha"
       = Some (Float bm)
    /\ zmanim_of_markers (189, 970, 113, 139, 995, 1008) !! "small_mincha"
       = Some (Float sm)
    /\ zmanim_of_markers (189, 970, 113, 139, 995, 1008) !! "plag_mincha"
       = Some (Float pm)
    /\ zmanim_of_markers (189, 970, 113, 139, 995, 1008) !! "stars_out"
       = Some (Float so)
    /\ zmanim_of_markers (189, 970, 113, 139, 995, 1008) !! "rabbeinu_tam"
       = Some (Float rt)
    /\ (sunrise <= sunset ->
        sunrise <= midday <= sunset
        /\ (inject_Z sunrise <= gs /\ gs <= gt /\ gt <= bm /\ bm <= sm
            /\ sm <= pm /\ pm <= inject_Z sunset /\ inject_Z sunset <= so
            /\ so <= rt)%Q).
Proof.
  exact (zmanim_order no_astral petah_tikva_2016 _ full_petah_tikva).
Defined.

Lemma zmanim_whole_seconds_witness :
  dom (table_of shabbat_morning (243, 885, 168, 193, 910, 923))
  = zmanim_keys
  /\ forall key t,
       table_of shabbat_morning (243, 885, 168, 193, 910, 923) !! key
       = Some t ->
       exists s : Z, t = utc_midnight (date shabbat_morning) + s * 1000000.
Proof.
  exact (zmanim_whole_seconds no_astral shabbat_morning _
           zmanim_shabbat_morning).
Defined.

Lemma rising_not_after_setting_witness : 189 <= 970.
Proof.
  exact (rising_not_after_setting petah_tikva_2016 90.833 189 970
           ref_acos_nonneg solver_petah_tikva).
Defined.

End scenario_results.
